(** * The log-proxy relation library of grafana-agent-k8s: a shallow embedding

    Source: [lib/charms/grafana_agent_k8s/v0/grafana_agent.py].

    The library has two relation ends.  [LogProxyConsumer] keeps a promtail
    sidecar configured: it provisions the promtail binary (download, SHA-256
    check, unzip, push), rewrites the sidecar's YAML configuration as units
    join and leave, and keeps a registry of the agents it has seen.
    [LogProxyProvider] publishes its endpoint once in its relation data.

    Conventions of the embedding:
    - Python values that travel through JSON or YAML are terms of [value];
      dictionaries are [gmap string value].
    - A string holding a JSON or YAML document is represented by the value
      it loads to ([JsonText], [YamlText]): [json.dumps]/[json.loads] and
      [yaml.dump]/[yaml.safe_load] are taken to be inverse on such values.
    - Exceptions are the [Raise] outcome of [result]; handlers run in a
      state-and-exception monad over the unit's state, and what a handler
      did before raising stays done.
    - Every call to a collaborator (Pebble, the network, the local file
      system, hashlib, zipfile) is logged in the state's [effects].
    - Pebble's plan is the layers of the sidecar: it refuses to restart
      or stop a service that no layer declares, and a declared service is
      taken to start and stop when Pebble is asked to. *)

From Stdlib Require Import Ascii.
From stdpp Require Import gmap strings list fin_maps pretty.

#[local] Set Warnings "-register-all".

(** ** Python values *)

(** The values JSON and YAML documents are made of.  Floats and keys that
    are not strings do not occur in the documents of this library and are
    left out. *)
Inductive value : Type :=
| VNone
| VBool (b : bool)
| VInt (z : Z)
| VStr (s : string)
| VList (l : list value)
| VDict (d : gmap string value).

(** The exceptions the library can meet.  [UrlopenError] stands for
    whatever [urlopen] raises (a [URLError], an [HTTPError], a
    [ValueError] for a string that is no URL) and [ZipFileError] for
    whatever [ZipFile] and [extractall] raise: their classes are not told
    apart.  [APIError] is what the Pebble client raises when Pebble
    refuses a request. *)
Inductive exn : Type :=
| PromtailDigestError (msg : string)
| Exception (msg : string)
| KeyError (key : string)
| IndexError
| TypeError
| AttributeError
| ModelError
| PathError (path : string)
| FileNotFoundError (path : string)
| UrlopenError
| ZipFileError
| JSONDecodeError
| YAMLError
| APIError.

Inductive result (A : Type) : Type :=
| Ok (a : A)
| Raise (e : exn).
Arguments Ok {A} a.
Arguments Raise {A} e.

#[global] Instance result_ret : MRet result := λ A a, Ok a.
#[global] Instance result_bind : MBind result := λ A B f r,
  match r with
  | Ok a => f a
  | Raise e => Raise e
  end.

(** [a == b] of Python on the values above: [bool] is a subclass of [int],
    lists compare pointwise, dictionaries by keys and values. *)
Fixpoint py_eq (a b : value) {struct a} : bool :=
  match a, b with
  | VNone, VNone => true
  | VBool x, VBool y => bool_decide (x = y)
  | VBool x, VInt y | VInt y, VBool x => bool_decide (Z.b2z x = y)
  | VInt x, VInt y => bool_decide (x = y)
  | VStr x, VStr y => bool_decide (x = y)
  | VList l, VList m =>
      (fix go (l m : list value) : bool :=
         match l, m with
         | [], [] => true
         | x :: l', y :: m' => py_eq x y && go l' m'
         | _, _ => false
         end) l m
  | VDict d, VDict e =>
      bool_decide (dom d = dom e) &&
      map_fold (λ k v acc,
                 acc && match e !! k with
                        | Some w => py_eq v w
                        | None => false
                        end) true d
  | _, _ => false
  end.

(** [a != b]. *)
Definition py_ne (a b : value) : bool := negb (py_eq a b).

(** [bool(v)]: what an [if v:] tests. *)
Definition truthy (v : value) : bool :=
  match v with
  | VNone => false
  | VBool b => b
  | VInt z => negb (bool_decide (z = 0%Z))
  | VStr s => negb (bool_decide (s = ""))
  | VList l => negb (bool_decide (l = []))
  | VDict d => negb (bool_decide (size d = 0))
  end.

(** [for c in v]: the items an iteration over [v] yields.  A string yields
    its characters and a dictionary its keys (here in the order of the
    map, which does not record insertion order). *)
Definition py_iter (v : value) : result (list value) :=
  match v with
  | VList l => Ok l
  | VStr s => Ok ((λ c, VStr (String c "")) <$> String.list_ascii_of_string s)
  | VDict d => Ok ((λ kv, VStr kv.1) <$> map_to_list d)
  | _ => Raise TypeError
  end.

(** [len(v)]. *)
Definition py_len (v : value) : result nat :=
  match v with
  | VList l => Ok (length l)
  | VStr s => Ok (String.length s)
  | VDict d => Ok (size d)
  | _ => Raise TypeError
  end.

(** [v[key]] for a string key: only a dictionary can be indexed by it. *)
Definition py_getitem (v : value) (key : string) : result value :=
  match v with
  | VDict d =>
      match d !! key with
      | Some x => Ok x
      | None => Raise (KeyError key)
      end
  | _ => Raise TypeError
  end.

(** ** Constants of the module *)

Definition PROMTAIL_BINARY_ZIP_URL : string :=
  "https://github.com/grafana/loki/releases/download/v2.4.1/promtail-linux-amd64.zip".
Definition BINARY_ZIP_PATH : string := "/tmp/promtail-linux-amd64.zip".
Definition BINARY_DIR : string := "/tmp".
Definition BINARY_SHA25SUM : string :=
  "978391a174e71cfef444ab9dc012f95d5d7eae0d682eaf1da2ea18f793452031".
Definition WORKLOAD_BINARY_PATH : string := "/tmp/promtail-linux-amd64".
Definition SERVICE_NAME : string := "promtail".
Definition DEFAULT_RELATION_NAME : string := "log_proxy".
Definition HTTP_LISTEN_PORT : Z := 9080.
Definition GRPC_LISTEN_PORT : Z := 0.
Definition POSITIONS_FILENAME : string := "/tmp/positions.yaml".
Definition CONFIG_PATH : string := "/tmp/promtail_config.yml".

(** ** Texts, files and events *)

(** A string, by what [json.loads] makes of it: [JsonText v] is the text
    [json.dumps] writes for [v], [PlainText s] a string that [json.loads]
    rejects. *)
Inductive json_text : Type :=
| JsonText (v : value)
| PlainText (s : string).

Definition json_dumps (v : value) : json_text := JsonText v.

Definition json_loads (t : json_text) : result value :=
  match t with
  | JsonText v => Ok v
  | PlainText _ => Raise JSONDecodeError
  end.

(** [bool(s)] of a string: a JSON text is never empty. *)
Definition text_truthy (t : json_text) : bool :=
  match t with
  | JsonText _ => true
  | PlainText s => negb (bool_decide (s = ""))
  end.

(** A file of the sidecar: the text [yaml.dump] writes for a value, or
    bytes pushed with their permissions. *)
Inductive file_content : Type :=
| YamlText (v : value)
| Bytes (b : list Byte.byte) (permissions : N).

Definition yaml_dump (v : value) : file_content := YamlText v.

Definition yaml_safe_load (f : file_content) : result value :=
  match f with
  | YamlText v => Ok v
  | Bytes _ _ => Raise YAMLError
  end.

Inductive event_class : Type :=
| RelationCreatedEvent
| RelationChangedEvent
| RelationDepartedEvent
| UpgradeCharmEvent.

#[global] Instance event_class_eq_dec : EqDecision event_class.
Proof. solve_decision. Defined.

(** A relation event: its class, [str(event.unit)] and the unit's side of
    the relation data, [event.relation.data[event.unit]]. *)
Record event : Type := Event {
  ev_class : event_class;
  ev_unit : string;
  ev_data : gmap string json_text;
}.

(** [json.loads(event.relation.data[event.unit].get("data"))[key]];
    [json.loads(None)] is a [TypeError]. *)
Definition event_data_item (ev : event) (key : string) : result value :=
  doc ← match ev_data ev !! "data" with
        | Some t => json_loads t
        | None => Raise TypeError
        end;
  py_getitem doc key.

(** ** The sidecar and the unit's state *)

Inductive service_status : Type := Running | Stopped.

(** One service of a Pebble layer. *)
Record service_spec : Type := ServiceSpec {
  svc_override : string;
  svc_summary : string;
  svc_command : string;
  svc_startup : string;
}.

Record pebble_layer : Type := PebbleLayer {
  layer_summary : string;
  layer_description : string;
  layer_services : gmap string service_spec;
}.

(** Calls to the collaborators, in the order they are made. *)
Inductive effect : Type :=
| EListFiles (dir pattern : string)
| EPull (path : string)
| EPush (path : string)
| EAddLayer (label : string)
| ERestart (service : string)
| EStop (service : string)
| EUrlopen (url : string)
| EWriteFile (path : string)
| EReadFile (path : string)
| ESha256 (path : string)
| EExtractAll (zip_file binary_dir : string).

#[global] Instance effect_eq_dec : EqDecision effect.
Proof. solve_decision. Defined.

(** The state a [LogProxyConsumer] works on: its own attributes, the stored
    registry ([_stored.grafana_agents], by the dictionary its JSON text
    holds), the sidecar container as Pebble shows it, and the file system
    of the charm container. *)
Record consumer : Type := Consumer {
  model_name : string;
  model_uuid : string;
  app_name : string;
  _container_name : option string;
  grafana_agents : gmap string value;
  sidecar_files : gmap string file_content;
  sidecar_services : gmap string service_status;
  sidecar_layers : gmap string pebble_layer;
  local_files : gmap string (list Byte.byte);
  effects : list effect;
}.

Definition set_grafana_agents (g : gmap string value) (s : consumer) : consumer :=
  Consumer (model_name s) (model_uuid s) (app_name s) (_container_name s)
    g (sidecar_files s) (sidecar_services s) (sidecar_layers s)
    (local_files s) (effects s).

Definition set_sidecar_files (f : gmap string file_content) (s : consumer) : consumer :=
  Consumer (model_name s) (model_uuid s) (app_name s) (_container_name s)
    (grafana_agents s) f (sidecar_services s) (sidecar_layers s)
    (local_files s) (effects s).

Definition set_sidecar_services (v : gmap string service_status) (s : consumer) : consumer :=
  Consumer (model_name s) (model_uuid s) (app_name s) (_container_name s)
    (grafana_agents s) (sidecar_files s) v (sidecar_layers s)
    (local_files s) (effects s).

Definition set_sidecar_layers (l : gmap string pebble_layer) (s : consumer) : consumer :=
  Consumer (model_name s) (model_uuid s) (app_name s) (_container_name s)
    (grafana_agents s) (sidecar_files s) (sidecar_services s) l
    (local_files s) (effects s).

Definition set_local_files (f : gmap string (list Byte.byte)) (s : consumer) : consumer :=
  Consumer (model_name s) (model_uuid s) (app_name s) (_container_name s)
    (grafana_agents s) (sidecar_files s) (sidecar_services s) (sidecar_layers s)
    f (effects s).

Definition set_effects (e : list effect) (s : consumer) : consumer :=
  Consumer (model_name s) (model_uuid s) (app_name s) (_container_name s)
    (grafana_agents s) (sidecar_files s) (sidecar_services s) (sidecar_layers s)
    (local_files s) e.

(** ** The handler monad: state and exceptions *)

Definition M (A : Type) : Type := consumer → result A * consumer.

#[global] Instance M_ret : MRet M := λ A a s, (Ok a, s).
#[global] Instance M_bind : MBind M := λ A B f m s,
  match m s with
  | (Ok a, s') => f a s'
  | (Raise e, s') => (Raise e, s')
  end.

Definition raise {A : Type} (e : exn) : M A := λ s, (Raise e, s).
Definition lift {A : Type} (r : result A) : M A := λ s, (r, s).
Definition pass : M unit := mret tt.
Definition get_state : M consumer := λ s, (Ok s, s).
Definition modify (f : consumer → consumer) : M unit := λ s, (Ok tt, f s).
Definition log (e : effect) : M unit := modify (λ s, set_effects (effects s ++ [e]) s).

(** *** The Pebble client of the sidecar container *)

(** The client is taken to reach Pebble: a call fails only where the
    comment of the operation says so. *)

(** [Container.list_files(dir, pattern=pat)] for a pattern without
    wildcards: it names at most one entry of the directory. *)
Definition list_files (dir pat : string) : M (list string) :=
  log (EListFiles dir pat);;
  s ← get_state;
  let path := dir +:+ "/" +:+ pat in
  mret (match sidecar_files s !! path with
        | Some _ => [path]
        | None => []
        end).

(** [Container.pull(path).read()]. *)
Definition pull (path : string) : M file_content :=
  log (EPull path);;
  s ← get_state;
  match sidecar_files s !! path with
  | Some f => mret f
  | None => raise (PathError path)
  end.

(** [Container.push(path, source)]. *)
Definition push (path : string) (source : file_content) : M unit :=
  log (EPush path);;
  modify (λ s, set_sidecar_files (<[path := source]> (sidecar_files s)) s).

(** The services of Pebble's plan are those some layer declares. *)
Definition service_declared (layers : gmap string pebble_layer) (service : string)
  : bool :=
  existsb (λ kv, bool_decide (is_Some (layer_services kv.2 !! service)))
    (map_to_list layers).

(** Pebble accepts the overrides [merge] and [replace] only. *)
Definition valid_overrides (layer : pebble_layer) : bool :=
  forallb (λ kv, bool_decide (svc_override kv.2 = "replace")
                 || bool_decide (svc_override kv.2 = "merge"))
    (map_to_list (layer_services layer)).

(** A field of a merged service: the new value when it is set. *)
Definition pick (old new : string) : string :=
  if bool_decide (new = "") then old else new.

(** A service added over the service of its name: with override
    [replace] it replaces it, with override [merge] it replaces the
    fields it sets. *)
Definition combine_services (old new : service_spec) : service_spec :=
  if bool_decide (svc_override new = "replace") then new
  else ServiceSpec (svc_override new)
         (pick (svc_summary old) (svc_summary new))
         (pick (svc_command old) (svc_command new))
         (pick (svc_startup old) (svc_startup new)).

(** What Pebble makes of a layer added with [combine=True] to the layer
    of the same label: the summary and the description are those of the
    new layer, its services are combined with those of their names, and
    the other services of the old layer stay. *)
Definition combine_layers (old new : pebble_layer) : pebble_layer :=
  PebbleLayer (layer_summary new) (layer_description new)
    (union_with (λ n o, Some (combine_services o n))
       (layer_services new) (layer_services old)).

(** The layer of label [l] once [layer] is added with [combine=True]: the
    combination with the layer of that label, or [layer] itself when
    there is none. *)
Definition layer_added (layers : gmap string pebble_layer) (l : string)
    (layer : pebble_layer) : pebble_layer :=
  match layers !! l with
  | Some old => combine_layers old layer
  | None => layer
  end.

(** [Container.add_layer(label, layer, combine=True)]; the client refuses
    a label that is not a string, Pebble a service without a valid
    override. *)
Definition add_layer (label : option string) (layer : pebble_layer) : M unit :=
  match label with
  | Some l =>
      log (EAddLayer l);;
      if valid_overrides layer then
        modify (λ s, set_sidecar_layers
                       (<[l := layer_added (sidecar_layers s) l layer]>
                          (sidecar_layers s)) s)
      else raise APIError
  | None => raise TypeError
  end.

(** [Container.restart(service)]; the client refuses a service name that
    is not a string, Pebble a service that no layer declares.  A declared
    service is taken to start when Pebble is asked to. *)
Definition restart (service : option string) : M unit :=
  match service with
  | Some n =>
      log (ERestart n);;
      s ← get_state;
      if service_declared (sidecar_layers s) n then
        modify (λ s, set_sidecar_services (<[n := Running]> (sidecar_services s)) s)
      else raise APIError
  | None => raise TypeError
  end.

(** [Container.stop(service)]; Pebble refuses a service that no layer
    declares. *)
Definition stop (service : string) : M unit :=
  log (EStop service);;
  s ← get_state;
  if service_declared (sidecar_layers s) service then
    modify (λ s, set_sidecar_services (<[service := Stopped]> (sidecar_services s)) s)
  else raise APIError.

(** *** The file system of the charm container *)

(** [open(path, "rb").read()] of a regular file; directories are not
    represented. *)
Definition read_file (path : string) : M (list Byte.byte) :=
  log (EReadFile path);;
  s ← get_state;
  match local_files s !! path with
  | Some b => mret b
  | None => raise (FileNotFoundError path)
  end.

(** The content left by [open(path, "wb")] and the writes that follow. *)
Definition write_file (path : string) (b : list Byte.byte) : M unit :=
  log (EWriteFile path);;
  modify (λ s, set_local_files (<[path := b]> (local_files s)) s).

(** The loop of [_download_promtail]: [response.read(size)] until an empty
    chunk, each chunk appended to what is written.  [fuel] bounds the
    number of reads; the length of the response plus one is enough. *)
Fixpoint read_chunks (size fuel : nat) (response written : list Byte.byte)
  : list Byte.byte :=
  match fuel with
  | 0 => written
  | S fuel' =>
      match take size response with
      | [] => written
      | chunk => read_chunks size fuel' (drop size response) (written ++ chunk)
      end
  end.

Definition CHUNK_SIZE : nat := N.to_nat 8192.

(** [s.split("/")[-1]]: what follows the last slash. *)
Fixpoint last_component (s acc : string) : string :=
  match s with
  | EmptyString => acc
  | String c s' =>
      if bool_decide (c = "/"%char) then last_component s' ""
      else last_component s' (acc +:+ String c "")
  end.

(** ** SHA-256, as [hashlib.sha256(data).hexdigest()] computes it *)

Module SHA256.

Definition mask32 (x : Z) : Z := Z.land x 0xffffffff.
Definition add32 (x y : Z) : Z := mask32 (x + y).
Definition rotr (n x : Z) : Z :=
  Z.lor (Z.shiftr x n) (mask32 (Z.shiftl x (32 - n))).

Definition ch (x y z : Z) : Z :=
  Z.lxor (Z.land x y) (Z.land (Z.lxor x 0xffffffff) z).
Definition maj (x y z : Z) : Z :=
  Z.lxor (Z.lxor (Z.land x y) (Z.land x z)) (Z.land y z).
Definition bsig0 (x : Z) : Z := Z.lxor (Z.lxor (rotr 2 x) (rotr 13 x)) (rotr 22 x).
Definition bsig1 (x : Z) : Z := Z.lxor (Z.lxor (rotr 6 x) (rotr 11 x)) (rotr 25 x).
Definition ssig0 (x : Z) : Z := Z.lxor (Z.lxor (rotr 7 x) (rotr 18 x)) (Z.shiftr x 3).
Definition ssig1 (x : Z) : Z := Z.lxor (Z.lxor (rotr 17 x) (rotr 19 x)) (Z.shiftr x 10).

(** A table of 32-bit words written in hexadecimal, separated by spaces. *)
Definition hex_value (c : ascii) : Z :=
  let n := Z.of_N (N_of_ascii c) in
  if bool_decide (n < 58)%Z then (n - 48)%Z else (n - 87)%Z.

Fixpoint hex_words (s : string) (current : option Z) : list Z :=
  match s with
  | EmptyString => option_list current
  | String c s' =>
      if bool_decide (c = " "%char) then option_list current ++ hex_words s' None
      else hex_words s' (Some (16 * default 0 current + hex_value c)%Z)
  end.

(** The round constants and the initial hash value of FIPS 180-4. *)
Definition K : list Z :=
  hex_words
    ("428a2f98 71374491 b5c0fbcf e9b5dba5 3956c25b 59f111f1 923f82a4 ab1c5ed5 " +:+
     "d807aa98 12835b01 243185be 550c7dc3 72be5d74 80deb1fe 9bdc06a7 c19bf174 " +:+
     "e49b69c1 efbe4786 0fc19dc6 240ca1cc 2de92c6f 4a7484aa 5cb0a9dc 76f988da " +:+
     "983e5152 a831c66d b00327c8 bf597fc7 c6e00bf3 d5a79147 06ca6351 14292967 " +:+
     "27b70a85 2e1b2138 4d2c6dfc 53380d13 650a7354 766a0abb 81c2c92e 92722c85 " +:+
     "a2bfe8a1 a81a664b c24b8b70 c76c51a3 d192e819 d6990624 f40e3585 106aa070 " +:+
     "19a4c116 1e376c08 2748774c 34b0bcb5 391c0cb3 4ed8aa4a 5b9cca4f 682e6ff3 " +:+
     "748f82ee 78a5636f 84c87814 8cc70208 90befffa a4506ceb bef9a3f7 c67178f2") None.

Definition H0 : list Z :=
  hex_words "6a09e667 bb67ae85 3c6ef372 a54ff53a 510e527f 9b05688c 1f83d9ab 5be0cd19" None.

(** The message, a [0x80] byte, zero bytes up to 56 modulo 64, and the
    length in bits on eight bytes, big-endian. *)
Definition pad (msg : list Z) : list Z :=
  let l := Z.of_nat (length msg) in
  let zeros := Z.to_nat ((55 - l) `mod` 64) in
  let bits := (8 * l)%Z in
  msg ++ [0x80%Z] ++ replicate zeros 0%Z ++
  ((λ i, Z.land (Z.shiftr bits (8 * i)) 0xff) <$> [7; 6; 5; 4; 3; 2; 1; 0]%Z).

Fixpoint to_words (bs : list Z) : list Z :=
  match bs with
  | a :: b :: c :: d :: rest =>
      Z.lor (Z.lor (Z.lor (Z.shiftl a 24) (Z.shiftl b 16)) (Z.shiftl c 8)) d
      :: to_words rest
  | _ => []
  end.

Definition word (w : list Z) (i : nat) : Z := nth i w 0%Z.

(** The message schedule: the sixteen words of the block, extended to
    sixty-four. *)
Definition schedule (block : list Z) : list Z :=
  foldl (λ w i,
           w ++ [add32 (add32 (add32 (ssig1 (word w (i - 2))) (word w (i - 7)))
                              (ssig0 (word w (i - 15))))
                       (word w (i - 16))])
        block (seq 16 48).

Definition round (st : list Z) (kw : Z * Z) : list Z :=
  match st with
  | [a; b; c; d; e; f; g; h] =>
      let t1 := add32 (add32 (add32 (add32 h (bsig1 e)) (ch e f g)) kw.1) kw.2 in
      let t2 := add32 (bsig0 a) (maj a b c) in
      [add32 t1 t2; a; b; c; add32 d t1; e; f; g]
  | _ => st
  end.

Definition compress (h block : list Z) : list Z :=
  zip_with add32 h (foldl round h (zip K (schedule block))).

Fixpoint process (blocks : nat) (bs h : list Z) : list Z :=
  match blocks with
  | 0 => h
  | S n => process n (drop 64 bs) (compress h (to_words (take 64 bs)))
  end.

Definition hex_digit (n : Z) : ascii :=
  nth (Z.to_nat n) (String.list_ascii_of_string "0123456789abcdef") "0"%char.

Definition hex_word (w : Z) : string :=
  String.string_of_list_ascii
    ((λ i, hex_digit (Z.land (Z.shiftr w (4 * i)) 0xf)) <$> [7; 6; 5; 4; 3; 2; 1; 0]%Z).

Definition hexdigest (data : list Byte.byte) : string :=
  let padded := pad ((λ b, Z.of_N (Byte.to_N b)) <$> data) in
  let h := process (length padded / 64) padded H0 in
  foldr (λ w acc, hex_word w +:+ acc) "" h.

End SHA256.

(** ** LogProxyConsumer *)

(** [d.update(other)] for dictionaries: the keys of [other] win. *)
Definition dict_update (d other : gmap string value) : gmap string value :=
  other ∪ d.

Module LogProxyConsumer.

(** A container of the unit, as [Unit.get_container] returns it. *)
Record container : Type := Container { container_label : string }.

(** [Unit.get_container(name)]. *)
Definition get_container (containers : gmap string container) (name : string)
  : result container :=
  match containers !! name with
  | Some c => Ok c
  | None => Raise ModelError
  end.

(** [_get_container], over [dict(self._charm.model.unit.containers)].
    [[*containers].pop()] is the last key; with one key the order of the
    keys does not matter. *)
Definition _get_container (containers : gmap string container)
    (container_name : option string) : result container :=
  match container_name with
  | Some name => get_container containers name
  | None =>
      if bool_decide (size containers = 1) then
        match last (map_to_list containers).*1 with
        | Some name => get_container containers name
        | None => Raise IndexError
        end
      else Raise (Exception "Container cannot be obtained")
  end.

(** [_cli_args]. *)
Definition _cli_args : string := "-config.file=" +:+ CONFIG_PATH.

(** The service and the layer [_add_pebble_layer] declares. *)
Definition promtail_service : service_spec :=
  ServiceSpec "replace" SERVICE_NAME
    (WORKLOAD_BINARY_PATH +:+ " " +:+ _cli_args) "enabled".

Definition promtail_layer : pebble_layer :=
  PebbleLayer "promtail layer" "pebble config layer for promtail"
    {[ SERVICE_NAME := promtail_service ]}.

(** [_add_pebble_layer]. *)
Definition _add_pebble_layer : M unit :=
  s ← get_state;
  add_layer (_container_name s) promtail_layer.

(** [_server_config], [_positions], [_scrape_configs]. *)
Definition _server_config : gmap string value :=
  {[ "server" := VDict {[ "http_listen_port" := VInt HTTP_LISTEN_PORT;
                          "grpc_listen_port" := VInt GRPC_LISTEN_PORT ]} ]}.

Definition _positions : gmap string value :=
  {[ "positions" := VDict {[ "filename" := VStr POSITIONS_FILENAME ]} ]}.

Definition _scrape_configs (s : consumer) : gmap string value :=
  {[ "scrape_configs" :=
       VList [ VDict {[
         "job_name" := VStr "system";
         "static_configs" :=
           VList [ VDict {[
             "targets" := VList [ VStr "localhost" ];
             "labels" := VDict {[
               "job" := VStr ("juju_" +:+ model_name s +:+ "_" +:+
                              model_uuid s +:+ "_" +:+ app_name s);
               "__path__" := VStr "/var/log/dmesg" ]} ]} ] ]} ] ]}.

(** [_initial_config]. *)
Definition _initial_config (s : consumer) : value :=
  VDict (dict_update (dict_update (dict_update ∅ _server_config) _positions)
           (_scrape_configs s)).

(** [_current_config]: the configuration read back from the sidecar. *)
Definition _current_config : M value :=
  raw_current ← pull CONFIG_PATH;
  lift (yaml_safe_load raw_current).

(** [_on_log_proxy_relation_created]. *)
Definition _on_log_proxy_relation_created (ev : event) : M unit :=
  s ← get_state;
  push CONFIG_PATH (yaml_dump (_initial_config s)).

(** [_is_promtail_binary_in_workload]. *)
Definition _is_promtail_binary_in_workload : M bool :=
  let pat := last_component WORKLOAD_BINARY_PATH "" in
  files ← list_files BINARY_DIR pat;
  mret (bool_decide (length files = 1)).

(** The client entry [{"url": agent_url}]. *)
Definition client_entry (agent_url : value) : value :=
  VDict {[ "url" := agent_url ]}.

(** [_add_client].  ["clients" in current_config] followed by the indexing
    or the item assignment is refused with a [TypeError] by everything that
    is not a dictionary; [.append] exists on lists only.  The dictionary is
    updated in place and returned: the result is its state after the call. *)
Definition _add_client (current_config agent_url : value) : result value :=
  match current_config with
  | VDict d =>
      match d !! "clients" with
      | Some (VList clients) =>
          Ok (VDict (<["clients" := VList (clients ++ [client_entry agent_url])]> d))
      | Some _ => Raise AttributeError
      | None => Ok (VDict (<["clients" := VList [client_entry agent_url]]> d))
      end
  | _ => Raise TypeError
  end.

(** [_remove_client].  [.get] exists on dictionaries only; a missing or
    falsy [clients] leaves the document as it is. *)
Definition _remove_client (current_config agent_url : value) : result value :=
  match current_config with
  | VDict d =>
      match d !! "clients" with
      | Some clients =>
          if truthy clients then
            cs ← py_iter clients;
            Ok (VDict (<["clients" :=
                  VList (filter (λ c, py_ne c (client_entry agent_url)) cs)]> d))
          else Ok current_config
      | None => Ok current_config
      end
  | _ => Raise AttributeError
  end.

(** [_build_config_file]: the two [isinstance] tests select at most one
    branch, [config] stays [{}] for any other event. *)
Definition _build_config_file (ev : event) : M file_content :=
  match ev_class ev with
  | RelationChangedEvent =>
      agent_url ← lift (event_data_item ev "loki_push_api");
      current ← _current_config;
      config ← lift (_add_client current agent_url);
      mret (yaml_dump config)
  | RelationDepartedEvent =>
      s ← get_state;
      agent_url ← match grafana_agents s !! ev_unit ev with
                  | Some u => mret u
                  | None => raise (KeyError (ev_unit ev))
                  end;
      current ← _current_config;
      config ← lift (_remove_client current agent_url);
      mret (yaml_dump config)
  | _ => mret (yaml_dump (VDict ∅))
  end.

(** [_update_config]. *)
Definition _update_config (ev : event) : M unit :=
  config ← _build_config_file ev;
  push CONFIG_PATH config.

(** [_update_agents_list]: [grafana_agents[unit] = url] on a change,
    [grafana_agents.pop(unit)] on a departure. *)
Definition _update_agents_list (ev : event) : M unit :=
  s ← get_state;
  let agents := grafana_agents s in
  match ev_class ev with
  | RelationChangedEvent =>
      agent_url ← lift (event_data_item ev "loki_push_api");
      modify (set_grafana_agents (<[ev_unit ev := agent_url]> agents))
  | RelationDepartedEvent =>
      match agents !! ev_unit ev with
      | Some agent_url => modify (set_grafana_agents (delete (ev_unit ev) agents))
      | None => raise (KeyError (ev_unit ev))
      end
  | _ => pass
  end.

(** [_on_log_proxy_relation_departed]. *)
Definition _on_log_proxy_relation_departed (ev : event) : M unit :=
  _update_config ev;;
  _update_agents_list ev;;
  current ← _current_config;
  clients ← lift (py_getitem current "clients");
  n ← lift (py_len clients);
  if bool_decide (n = 0) then stop SERVICE_NAME
  else restart (Some SERVICE_NAME).

(** [_on_upgrade_charm]. *)
Definition _on_upgrade_charm (ev : event) : M unit := pass.

Section Provisioning.

(** The collaborators of the binary provisioner.  [urlopen] is
    [urllib]'s: the body of the response, [None] when it raises.
    [zip_members] is what [ZipFile.extractall] writes for an archive: the
    files, each with the path below the target directory that
    [extractall] makes of its name, in the order it writes them; [None]
    when [ZipFile] or [extractall] raises.  The directories it makes are
    not represented. *)
Variable urlopen : string → option (list Byte.byte).
Variable zip_members : list Byte.byte → option (list (string * list Byte.byte)).

(** [_download_promtail]; [urlopen] of what is not a string fails on a
    missing attribute, and what [urlopen] raises leaves the function
    ([UrlopenError], whatever its class). *)
Definition _download_promtail (ev : event) : M unit :=
  url ← lift (event_data_item ev "promtail_binary_zip_url");
  match url with
  | VStr u =>
      log (EUrlopen u);;
      match urlopen u with
      | Some response =>
          write_file BINARY_ZIP_PATH
            (read_chunks CHUNK_SIZE (S (length response)) response [])
      | None => raise UrlopenError
      end
  | _ => raise AttributeError
  end.

(** [_check_sha256sum]. *)
Definition _check_sha256sum (filename sha256sum : string) : M bool :=
  f_byte ← read_file filename;
  log (ESha256 filename);;
  let result := SHA256.hexdigest f_byte in
  if bool_decide (sha256sum = result) then mret true else mret false.

(** [_unzip_binary]: every file [extractall] writes is written at its
    path under [binary_dir]. *)
Definition _unzip_binary (zip_file binary_dir : string) : M unit :=
  archive ← read_file zip_file;
  match zip_members archive with
  | Some members =>
      log (EExtractAll zip_file binary_dir);;
      modify (λ s, set_local_files
                     (foldl (λ fs m, <[binary_dir +:+ "/" +:+ m.1 := m.2]> fs)
                            (local_files s) members) s)
  | None => raise ZipFileError
  end.

(** [_upload_binary], with [permissions=0o755]. *)
Definition _upload_binary (dest origin : string) : M unit :=
  f ← read_file origin;
  push dest (Bytes f 493).

(** [_obtain_promtail]. *)
Definition _obtain_promtail (ev : event) : M unit :=
  present ← _is_promtail_binary_in_workload;
  if (present : bool) then pass
  else
    _download_promtail ev;;
    ok ← _check_sha256sum BINARY_ZIP_PATH BINARY_SHA25SUM;
    if negb ok then raise (PromtailDigestError "Promtail bnary sha256sum mismatch")
    else
      _unzip_binary BINARY_ZIP_PATH BINARY_DIR;;
      _upload_binary WORKLOAD_BINARY_PATH WORKLOAD_BINARY_PATH.

(** [_on_log_proxy_relation_changed]. *)
Definition _on_log_proxy_relation_changed (ev : event) : M unit :=
  match ev_data ev !! "data" with
  | Some t =>
      if text_truthy t then
        _obtain_promtail ev;;
        _update_config ev;;
        _update_agents_list ev;;
        _add_pebble_layer;;
        s ← get_state;
        restart (_container_name s);;
        restart (Some SERVICE_NAME)
      else pass
  | None => pass
  end.

End Provisioning.

End LogProxyConsumer.

(** ** What the properties speak of *)

(** The [clients] list of a configuration document: the list under the
    key, the empty list when the key is absent, and nothing when the key
    holds something else than a list. *)
Definition clients_of (d : gmap string value) : option (list value) :=
  match d !! "clients" with
  | None => Some []
  | Some (VList cs) => Some cs
  | Some _ => None
  end.

(** A run of [m] from [s] calls [stop] or [restart] on the promtail
    service, whether it returns or raises. *)
Definition calls_stop_or_restart (m : M unit) (s : consumer) : Prop :=
  ∃ (r : result unit) (s' : consumer) (calls : list effect),
    m s = (r, s') ∧
    effects s' = effects s ++ calls ∧
    (EStop SERVICE_NAME ∈ calls ∨ ERestart SERVICE_NAME ∈ calls).

(** The calls that change the sidecar: its files, its layers or its
    services. *)
Definition changes_sidecar (c : effect) : bool :=
  match c with
  | EPush _ | EAddLayer _ | ERestart _ | EStop _ => true
  | _ => false
  end.

(** [s'] has the sidecar (files, services, layers) and the registry of
    [s], and the calls made from [s] to [s'] change none of them. *)
Definition sidecar_kept (s s' : consumer) : Prop :=
  sidecar_files s' = sidecar_files s ∧
  grafana_agents s' = grafana_agents s ∧
  sidecar_services s' = sidecar_services s ∧
  sidecar_layers s' = sidecar_layers s ∧
  ∃ calls, effects s' = effects s ++ calls ∧
           Forall (λ c, changes_sidecar c = false) calls.

(** [m] keeps the sidecar however it ends; when it ends in an exception. *)
Definition keeps_sidecar {A : Type} (m : M A) : Prop :=
  ∀ s r s', m s = (r, s') → sidecar_kept s s'.

Definition keeps_sidecar_on_raise {A : Type} (m : M A) : Prop :=
  ∀ s e s', m s = (Raise e, s') → sidecar_kept s s'.

(** ** LogProxyProvider *)

(** The state a [LogProxyProvider] works on: this unit's side of the
    relation data, [str] of the bind address of the relation's binding
    ([None] when there is none) and the port the charm listens on. *)
Record provider : Type := Provider {
  unit_data : gmap string json_text;
  bind_address : option string;
  _http_listen_port : Z;
}.

Module LogProxyProvider.

(** [unit_ip]. *)
Definition unit_ip (p : provider) : string :=
  match bind_address p with
  | Some a => a
  | None => ""
  end.

(** [_loki_push_api]. *)
Definition _loki_push_api (p : provider) : json_text :=
  let loki_push_api :=
    "http://" +:+ unit_ip p +:+ ":" +:+ pretty (_http_listen_port p) +:+
    "/loki/api/v1/push" in
  json_dumps (VDict {[ "loki_push_api" := VStr loki_push_api ]}).

(** [_promtail_binary_url]. *)
Definition _promtail_binary_url : json_text :=
  json_dumps (VDict {[ "promtail_binary_zip_url" := VStr PROMTAIL_BINARY_ZIP_URL ]}).

(** [data.update(json.loads(text))]; only a dictionary is merged here. *)
Definition update_from_json (data : gmap string value) (text : json_text)
  : result (gmap string value) :=
  v ← json_loads text;
  match v with
  | VDict other => Ok (dict_update data other)
  | _ => Raise TypeError
  end.

(** [_on_log_proxy_relation_changed]. *)
Definition _on_log_proxy_relation_changed (p : provider) : result provider :=
  match unit_data p !! "data" with
  | None =>
      data ← update_from_json ∅ (_loki_push_api p);
      data ← update_from_json data _promtail_binary_url;
      Ok (Provider (<["data" := json_dumps (VDict data)]> (unit_data p))
            (bind_address p) (_http_listen_port p))
  | Some _ => Ok p
  end.

(** [_on_upgrade_charm]. *)
Definition _on_upgrade_charm (p : provider) : result provider := Ok p.

End LogProxyProvider.

(** ** Sample states *)

Import LogProxyConsumer.

(** A configuration with one client. *)
Definition sample_config : gmap string value :=
  {[ "positions" := VDict {[ "filename" := VStr POSITIONS_FILENAME ]};
     "clients" := VList [client_entry (VStr "http://a")] ]}.

(** A provider bound to 10.0.0.5, listening on 3100, that has published
    nothing yet. *)
Definition sample_provider : provider := Provider ∅ (Some "10.0.0.5") 3100.

(** What the provider above publishes, as a consumer receives it. *)
Definition sample_changed_event : event :=
  Event RelationChangedEvent "grafana-agent-k8s/0"
    {[ "data" := json_dumps (VDict {[
         "loki_push_api" := VStr "http://10.0.0.5:3100/loki/api/v1/push";
         "promtail_binary_zip_url" := VStr PROMTAIL_BINARY_ZIP_URL ]}) ]}.

Definition sample_departed_event : event :=
  Event RelationDepartedEvent "grafana-agent-k8s/0" ∅.

(** A network that serves two bytes at the promtail URL, which are not
    the pinned release, and a [ZipFile] that accepts nothing. *)
Definition sample_urlopen (url : string) : option (list Byte.byte) :=
  if bool_decide (url = PROMTAIL_BINARY_ZIP_URL) then Some [Byte.x50; Byte.x4b]
  else None.

Definition sample_zip_members (archive : list Byte.byte)
  : option (list (string * list Byte.byte)) := None.

(** A consumer whose sidecar has its initial configuration and no
    promtail binary. *)
Definition fresh_consumer : consumer :=
  let s := Consumer "lma" "1234" "workload" (Some "promtail") ∅ ∅ ∅ ∅ ∅ [] in
  set_sidecar_files {[ CONFIG_PATH := yaml_dump (_initial_config s) ]} s.

(** A consumer that serves one agent: the binary is installed, the
    configuration has the agent as its only client and the registry
    records it. *)
Definition serving_consumer : consumer :=
  Consumer "lma" "1234" "workload" (Some "promtail")
    {[ "grafana-agent-k8s/0" := VStr "http://10.0.0.5:3100/loki/api/v1/push" ]}
    {[ CONFIG_PATH := yaml_dump (VDict {[
         "clients" := VList [client_entry (VStr "http://10.0.0.5:3100/loki/api/v1/push")] ]});
       WORKLOAD_BINARY_PATH := Bytes [] 493 ]}
    {[ SERVICE_NAME := Running ]} {[ "promtail" := promtail_layer ]} ∅ [].

(** A consumer that serves two agents. *)
Definition serving_two_consumer : consumer :=
  Consumer "lma" "1234" "workload" (Some "promtail")
    {[ "grafana-agent-k8s/0" := VStr "http://10.0.0.5:3100/loki/api/v1/push";
       "grafana-agent-k8s/1" := VStr "http://10.0.0.6:3100/loki/api/v1/push" ]}
    {[ CONFIG_PATH := yaml_dump (VDict {[
         "clients" := VList [client_entry (VStr "http://10.0.0.5:3100/loki/api/v1/push");
                             client_entry (VStr "http://10.0.0.6:3100/loki/api/v1/push")] ]});
       WORKLOAD_BINARY_PATH := Bytes [] 493 ]}
    {[ SERVICE_NAME := Running ]} {[ "promtail" := promtail_layer ]} ∅ [].

(** The consumer that serves one agent after a relation-created event:
    the registry knows the agent, the configuration is the initial one. *)
Definition recreated_consumer : consumer :=
  (_on_log_proxy_relation_created sample_changed_event serving_consumer).2.

(** The consumer that served two agents after the departure of the
    first. *)
Definition departed_consumer : consumer :=
  (_on_log_proxy_relation_departed sample_departed_event serving_two_consumer).2.

(** ** Well-formed configurations *)

(** The configuration on the sidecar is a dictionary whose [clients], when
    it has them, is a list of entries [{"url": ...}]. *)
Definition config_well_formed (s : consumer) : Prop :=
  ∃ d cs, sidecar_files s !! CONFIG_PATH = Some (YamlText (VDict d)) ∧
          clients_of d = Some cs ∧
          Forall (λ c, ∃ u, c = client_entry u) cs.

(** [m] leaves a well-formed configuration well-formed, however it ends. *)
Definition keeps_config_well_formed {A : Type} (m : M A) : Prop :=
  ∀ s, config_well_formed s → config_well_formed (m s).2.

(** ** More sample states *)

(** An event whose unit has published an empty document. *)
Definition sample_incomplete_event : event :=
  Event RelationChangedEvent "grafana-agent-k8s/0"
    {[ "data" := json_dumps (VDict ∅) ]}.

(** The dictionary of [_initial_config]. *)
Definition initial_sections (s : consumer) : gmap string value :=
  dict_update (dict_update (dict_update ∅ _server_config) _positions)
    (_scrape_configs s).

(** A consumer with the initial configuration and the binary installed. *)
Definition ready_consumer : consumer :=
  set_sidecar_files
    (<[WORKLOAD_BINARY_PATH := Bytes [] 493]> (sidecar_files fresh_consumer))
    fresh_consumer.

(** The same in a container named after the workload, whose plan has the
    workload's service. *)
Definition workload_layer : pebble_layer :=
  PebbleLayer "workload" "the workload"
    {[ "workload" := ServiceSpec "replace" "workload" "/bin/workload" "enabled" ]}.

Definition workload_consumer : consumer :=
  Consumer (model_name ready_consumer) (model_uuid ready_consumer)
    (app_name ready_consumer) (Some "workload")
    (grafana_agents ready_consumer) (sidecar_files ready_consumer)
    (sidecar_services ready_consumer) {[ "workload" := workload_layer ]}
    (local_files ready_consumer) (effects ready_consumer).

(** A consumer whose registry knows a unit while its configuration is the
    initial one. *)
Definition orphaned_consumer : consumer :=
  set_grafana_agents (grafana_agents serving_consumer) fresh_consumer.

(** A configuration in which one client was added twice. *)
Definition sample_config_twice : gmap string value :=
  {[ "clients" := VList [client_entry (VStr "http://a");
                         client_entry (VStr "http://b");
                         client_entry (VStr "http://a")] ]}.

(** A network that serves twenty thousand bytes, more than two chunks, at
    every URL. *)
Definition sample_long_urlopen (url : string) : option (list Byte.byte) :=
  Some (replicate (N.to_nat 20000) Byte.x00).



(** A network that is down. *)
Definition sample_dead_urlopen (url : string) : option (list Byte.byte) := None.

(** * Properties *)

(** ** Config synthesis *)

Lemma py_eq_client_entry (U : string) :
  py_eq (client_entry (VStr U)) (client_entry (VStr U)) = true.
Proof.
  unfold client_entry. simpl.
  rewrite bool_decide_true by done.
  rewrite map_fold_singleton, lookup_singleton_eq. simpl.
  by rewrite bool_decide_true.
Qed.

Lemma clients_of_lookup (d : gmap string value) (cs : list value) :
  clients_of d = Some cs →
  d !! "clients" = None ∧ cs = [] ∨ d !! "clients" = Some (VList cs).
Proof.
  unfold clients_of. destruct (d !! "clients") as [[]|]; naive_solver.
Qed.

(** What [_add_client] returns on a document whose [clients] is a list or
    is missing: the entry is appended, the rest is kept. *)
Lemma _add_client_spec (d : gmap string value) (cs : list value) (u : value) :
  clients_of d = Some cs →
  _add_client (VDict d) u =
    Ok (VDict (<["clients" := VList (cs ++ [client_entry u])]> d)).
Proof.
  intros [[Hd ->]|Hd]%clients_of_lookup; simpl; by rewrite Hd.
Qed.

(** What [_remove_client] returns on such a document. *)
Lemma _remove_client_spec (d : gmap string value) (cs : list value) (u : value) :
  clients_of d = Some cs →
  ∃ d', _remove_client (VDict d) u = Ok (VDict d') ∧
        clients_of d' = Some (filter (λ c, py_ne c (client_entry u)) cs) ∧
        ∀ k, k ≠ "clients" → d' !! k = d !! k.
Proof.
  intros [[Hd ->]|Hd]%clients_of_lookup; simpl; rewrite Hd.
  - exists d. split_and!; [done| |done]. unfold clients_of. by rewrite Hd.
  - destruct cs as [|c cs]; simpl.
    + exists d. split_and!; [done| |done]. unfold clients_of. by rewrite Hd.
    + eexists. split_and!; [done| |].
      * unfold clients_of. by rewrite lookup_insert_eq.
      * intros k Hk. by rewrite lookup_insert_ne.
Qed.

(** Whatever the document, a successful [_add_client] touches [clients]
    only. *)
Lemma _add_client_frame (doc u r : value) (k : string) :
  _add_client doc u = Ok r → k ≠ "clients" →
  ∃ d d', doc = VDict d ∧ r = VDict d' ∧ d' !! k = d !! k.
Proof.
  intros Hadd Hk. destruct doc as [| | | | |d]; try discriminate.
  simpl in Hadd. destruct (d !! "clients") as [[]|]; try discriminate;
    injection Hadd as <-; eexists _, _; split_and!; try done;
    by rewrite lookup_insert_ne.
Qed.

(** Whatever the document, a successful [_remove_client] touches [clients]
    only. *)
Lemma _remove_client_frame (doc u r : value) (k : string) :
  _remove_client doc u = Ok r → k ≠ "clients" →
  ∃ d d', doc = VDict d ∧ r = VDict d' ∧ d' !! k = d !! k.
Proof.
  intros Hrem Hk. destruct doc as [| | | | |d]; try discriminate.
  simpl in Hrem. destruct (d !! "clients") as [c|].
  - destruct (truthy c).
    + destruct (py_iter c) as [cs|]; try discriminate. simpl in Hrem.
      injection Hrem as <-. eexists _, _; split_and!; try done.
      by rewrite lookup_insert_ne.
    + injection Hrem as <-. by eexists _, _.
  - injection Hrem as <-. by eexists _, _.
Qed.

Lemma filter_py_ne_all (e : value) (cs : list value) :
  Forall (λ c, py_eq c e = true) cs → filter (λ c, py_ne c e) cs = [].
Proof.
  induction 1 as [|c cs Hc _ IH]; [done|].
  rewrite filter_cons_False; [done|]. unfold py_ne. rewrite Hc. simpl. tauto.
Qed.

(** C4, as stated, fails: a client other than [U] survives the removal. *)
Lemma remove_after_add_keeps_other_clients :
  ¬ (∀ (d : gmap string value) (U : string),
       ∃ d', (_add_client (VDict d) (VStr U) ≫= λ doc, _remove_client doc (VStr U))
               = Ok (VDict d') ∧
             d' !! "clients" = Some (VList [])).
Proof.
  intros H.
  destruct (H {[ "clients" := VList [client_entry (VStr "http://a")] ]} "http://b")
    as (d' & Hrun & Hcs).
  vm_compute in Hrun. injection Hrun as <-. vm_compute in Hcs. discriminate.
Qed.

(** C4 (amended): on a document whose [clients] is a list or is missing,
    removing [U] after adding it leaves exactly the clients the document
    had that are not equal to [{"url": U}]; the list is empty when the
    document had no other client. *)
Theorem remove_after_add (d : gmap string value) (cs : list value) (U : string) :
  clients_of d = Some cs →
  ∃ d', (_add_client (VDict d) (VStr U) ≫= λ doc, _remove_client doc (VStr U))
          = Ok (VDict d') ∧
        d' !! "clients" =
          Some (VList (filter (λ c, py_ne c (client_entry (VStr U))) cs)) ∧
        (Forall (λ c, py_eq c (client_entry (VStr U)) = true) cs →
         d' !! "clients" = Some (VList [])).
Proof.
  intros Hcs. rewrite (_add_client_spec _ _ _ Hcs). simpl.
  rewrite lookup_insert_eq.
  assert (truthy (VList (cs ++ [client_entry (VStr U)])) = true) as ->.
  { simpl. rewrite bool_decide_false; [done|]. by destruct cs. }
  simpl. eexists. split; [done|].
  rewrite lookup_insert_eq, filter_app, filter_cons_False, filter_nil, app_nil_r.
  2:{ unfold py_ne. rewrite py_eq_client_entry. simpl. tauto. }
  split; [done|].
  intros Hall. by rewrite filter_py_ne_all.
Qed.

Lemma remove_after_add_witness :
  ∃ d', (_add_client (VDict ∅) (VStr "http://10.0.0.5:3100/loki/api/v1/push")
           ≫= λ doc, _remove_client doc (VStr "http://10.0.0.5:3100/loki/api/v1/push"))
          = Ok (VDict d') ∧
        d' !! "clients" = Some (VList []).
Proof.
  destruct (remove_after_add ∅ [] "http://10.0.0.5:3100/loki/api/v1/push")
    as (d' & Hrun & _ & Hempty); [reflexivity|].
  exists d'. split; [exact Hrun|]. apply Hempty. constructor.
Defined.

(** C8: adding the same URL twice leaves two equal entries [{"url": U}] at
    the end of the clients list: nothing is deduplicated. *)
Theorem add_client_twice (d : gmap string value) (cs : list value) (U : string) :
  clients_of d = Some cs →
  ∃ d', (_add_client (VDict d) (VStr U) ≫= λ doc, _add_client doc (VStr U))
          = Ok (VDict d') ∧
        d' !! "clients" =
          Some (VList (cs ++ [client_entry (VStr U); client_entry (VStr U)])) ∧
        py_eq (client_entry (VStr U)) (client_entry (VStr U)) = true.
Proof.
  intros Hcs. rewrite (_add_client_spec _ _ _ Hcs). simpl.
  rewrite lookup_insert_eq. eexists. split; [done|].
  rewrite lookup_insert_eq, <- app_assoc. split; [done|].
  apply py_eq_client_entry.
Qed.

Lemma add_client_twice_witness :
  ∃ d', (_add_client (VDict ∅) (VStr "http://a") ≫= λ doc, _add_client doc (VStr "http://a"))
          = Ok (VDict d') ∧
        d' !! "clients" =
          Some (VList [client_entry (VStr "http://a"); client_entry (VStr "http://a")]).
Proof.
  destruct (add_client_twice ∅ [] "http://a") as (d' & Hrun & Hcs & _); [reflexivity|].
  exists d'. split; [exact Hrun | exact Hcs].
Defined.

(** C10: a config mutation touches [clients] only.  Whatever the value
    [_add_client] or [_remove_client] returns for a document, every
    top-level key other than [clients] keeps its value there (or stays
    absent); and on a document whose [clients] is a list or is missing,
    both return one. *)
Theorem config_mutations_frame (d : gmap string value) (u : value) (k : string) :
  k ≠ "clients" →
  (∀ r, _add_client (VDict d) u = Ok r ∨ _remove_client (VDict d) u = Ok r →
        ∃ d', r = VDict d' ∧ d' !! k = d !! k) ∧
  (∀ cs, clients_of d = Some cs →
         ∃ d1 d2, _add_client (VDict d) u = Ok (VDict d1) ∧
                  _remove_client (VDict d) u = Ok (VDict d2)).
Proof.
  intros Hk. split.
  - intros r [Hr|Hr].
    + destruct (_add_client_frame _ _ _ k Hr Hk) as (d0 & d' & [= <-] & -> & Hd').
      by exists d'.
    + destruct (_remove_client_frame _ _ _ k Hr Hk) as (d0 & d' & [= <-] & -> & Hd').
      by exists d'.
  - intros cs Hcs.
    destruct (_remove_client_spec d cs u Hcs) as (d2 & Hrem & _).
    eexists _, d2. split; [by apply _add_client_spec|done].
Qed.

Lemma config_mutations_frame_witness :
  ∃ d1 d2,
    _add_client (VDict sample_config) (VStr "http://b") = Ok (VDict d1) ∧
    _remove_client (VDict sample_config) (VStr "http://b") = Ok (VDict d2) ∧
    d1 !! "positions" = sample_config !! "positions" ∧
    d2 !! "positions" = sample_config !! "positions".
Proof.
  destruct (config_mutations_frame sample_config (VStr "http://b") "positions")
    as [Hframe Hruns]; [discriminate|].
  destruct (Hruns [client_entry (VStr "http://a")]) as (d1 & d2 & Hadd & Hrem).
  { vm_compute. reflexivity. }
  exists d1, d2. split_and!; [exact Hadd | exact Hrem | |].
  - destruct (Hframe (VDict d1)) as (d' & [= <-] & Hd'); [by left | exact Hd'].
  - destruct (Hframe (VDict d2)) as (d' & [= <-] & Hd'); [by right | exact Hd'].
Defined.

(** ** Container resolution *)

Lemma map_size_1_singleton {A : Type} (m : gmap string A) :
  size m = 1 → ∃ i x, m = {[ i := x ]}.
Proof.
  intros Hsize. rewrite <- length_map_to_list in Hsize.
  destruct (map_to_list m) as [|[i x] [|? ?]] eqn:Hl; try discriminate.
  exists i, x. rewrite <- (list_to_map_to_list m), Hl. simpl.
  by rewrite insert_empty.
Qed.

(** C5: with no container name configured, [_get_container] raises exactly
    when the unit does not have exactly one container, and returns a
    container exactly when it is the only one of the unit. *)
Theorem unnamed_container_resolution (containers : gmap string container) :
  ((∃ e, _get_container containers None = Raise e) ↔ size containers ≠ 1) ∧
  (∀ c, _get_container containers None = Ok c ↔
        ∃ name, containers = {[ name := c ]}).
Proof.
  assert (∀ name c, _get_container ({[ name := c ]} : gmap string container) None = Ok c)
    as Hone.
  { intros name c. unfold _get_container.
    rewrite map_size_singleton, bool_decide_true by done.
    rewrite map_to_list_singleton. simpl. unfold get_container.
    by rewrite lookup_singleton_eq. }
  assert (size containers ≠ 1 →
          _get_container containers None = Raise (Exception "Container cannot be obtained"))
    as Hmany.
  { intros Hsize. unfold _get_container. by rewrite bool_decide_false. }
  split; [split|intros c; split].
  - intros [e He] Hsize.
    destruct (map_size_1_singleton _ Hsize) as (name & c & ->).
    rewrite Hone in He. discriminate.
  - intros Hsize. rewrite (Hmany Hsize). by eexists.
  - intros Hc. destruct (decide (size containers = 1)) as [Hsize|Hsize].
    + destruct (map_size_1_singleton _ Hsize) as (name & c' & ->).
      rewrite Hone in Hc. injection Hc as ->. by exists name.
    + rewrite (Hmany Hsize) in Hc. discriminate.
  - intros [name ->]. apply Hone.
Qed.

(** ** The provider *)

(** C6: a provider that has published no [data] yet publishes the composed
    document at the first relation-changed event, and a second event leaves
    its relation data as the first one left it. *)
Theorem provider_publishes_once (p : provider) :
  unit_data p !! "data" = None →
  ∃ p1,
    LogProxyProvider._on_log_proxy_relation_changed p = Ok p1 ∧
    unit_data p1 =
      <["data" := json_dumps (VDict {[
          "loki_push_api" :=
            VStr ("http://" +:+ LogProxyProvider.unit_ip p +:+ ":" +:+ pretty (_http_listen_port p)
                  +:+ "/loki/api/v1/push");
          "promtail_binary_zip_url" := VStr PROMTAIL_BINARY_ZIP_URL ]})]>
        (unit_data p) ∧
    LogProxyProvider._on_log_proxy_relation_changed p1 = Ok p1.
Proof.
  intros Hnone. unfold LogProxyProvider._on_log_proxy_relation_changed at 1.
  rewrite Hnone. simpl. eexists. split; [done|]. split.
  - simpl. reflexivity.
  - unfold LogProxyProvider._on_log_proxy_relation_changed. simpl.
    by rewrite lookup_insert_eq.
Qed.

Lemma provider_publishes_once_witness :
  ∃ p1,
    LogProxyProvider._on_log_proxy_relation_changed sample_provider = Ok p1 ∧
    unit_data p1 !! "data" =
      Some (JsonText (VDict {[
          "loki_push_api" := VStr "http://10.0.0.5:3100/loki/api/v1/push";
          "promtail_binary_zip_url" := VStr PROMTAIL_BINARY_ZIP_URL ]})) ∧
    LogProxyProvider._on_log_proxy_relation_changed p1 = Ok p1.
Proof.
  destruct (provider_publishes_once sample_provider) as (p1 & Hrun & Hdata & Hagain).
  - reflexivity.
  - exists p1. split; [exact Hrun|]. split; [|exact Hagain].
    rewrite Hdata. vm_compute. reflexivity.
Defined.

(** ** The collaborators' models at work *)

Example sha256_tables :
  length SHA256.K = 64 ∧ SHA256.K !! 0 = Some 0x428a2f98%Z ∧
  SHA256.K !! 63 = Some 0xc67178f2%Z ∧
  length SHA256.H0 = 8 ∧ SHA256.H0 !! 0 = Some 0x6a09e667%Z.
Proof. vm_compute. done. Qed.

Example sha256_of_nothing :
  SHA256.hexdigest [] =
    "e3b0c44298fc1c149afbf4c8996fb92427ae41e4649b934ca495991b7852b855".
Proof. vm_compute. reflexivity. Qed.

Example sha256_of_abc :
  SHA256.hexdigest [Byte.x61; Byte.x62; Byte.x63] =
    "ba7816bf8f01cfea414140de5dae2223b00361a396177a9cb410ff61f20015ad".
Proof. vm_compute. reflexivity. Qed.

Example sha256_of_two_blocks :
  SHA256.hexdigest (replicate 100 Byte.x61) =
    "2816597888e4a0d3a36b82b83316ab32680eb8f00f8cd3b904d681246d285a0e".
Proof. vm_compute. reflexivity. Qed.

Example binary_pattern :
  last_component WORKLOAD_BINARY_PATH "" = "promtail-linux-amd64".
Proof. reflexivity. Qed.

Example scenario_sole_consumer_departs :
  let r := _on_log_proxy_relation_departed sample_departed_event serving_consumer in
  r.1 = Ok tt ∧ sidecar_services r.2 !! SERVICE_NAME = Some Stopped ∧
  last (effects r.2) = Some (EStop SERVICE_NAME).
Proof. vm_compute. done. Qed.

Example scenario_one_of_two_consumers_departs :
  let r := _on_log_proxy_relation_departed sample_departed_event serving_two_consumer in
  r.1 = Ok tt ∧ sidecar_services r.2 !! SERVICE_NAME = Some Running ∧
  last (effects r.2) = Some (ERestart SERVICE_NAME) ∧
  (yaml_safe_load <$> sidecar_files r.2 !! CONFIG_PATH) =
    Some (Ok (VDict {[ "clients" := VList [client_entry (VStr "http://10.0.0.6:3100/loki/api/v1/push")] ]})).
Proof. vm_compute. done. Qed.

Example scenario_departure_without_clients_key :
  (_on_log_proxy_relation_departed sample_departed_event
     (set_grafana_agents (grafana_agents serving_consumer) fresh_consumer)).1 =
    Raise (KeyError "clients").
Proof. vm_compute. done. Qed.

(** ** Running the handlers *)

(** Symbolic execution of a handler on a state given by its fields. *)
Ltac run :=
  cbv [mbind M_bind mret M_ret raise lift get_state modify log pass
       list_files pull push add_layer restart stop read_file write_file
       set_effects set_sidecar_files set_sidecar_services set_sidecar_layers
       set_local_files set_grafana_agents
       model_name model_uuid app_name _container_name grafana_agents
       sidecar_files sidecar_services sidecar_layers local_files effects].

Ltac fields H :=
  cbn [model_name model_uuid app_name _container_name grafana_agents
       sidecar_files sidecar_services sidecar_layers local_files effects] in H.

Lemma binary_path :
  BINARY_DIR +:+ "/" +:+ last_component WORKLOAD_BINARY_PATH "" = WORKLOAD_BINARY_PATH.
Proof. reflexivity. Qed.

(** The download loop writes the whole response. *)
Lemma read_chunks_all (size fuel : nat) (response written : list Byte.byte) :
  0 < size → length response < fuel →
  read_chunks size fuel response written = written ++ response.
Proof.
  intros Hsize. revert response written.
  induction fuel as [|fuel IH]; intros response written Hlen; [lia|].
  simpl. destruct response as [|b response].
  { rewrite take_nil. by rewrite app_nil_r. }
  destruct size as [|size]; [lia|].
  rewrite firstn_cons. rewrite IH.
  - rewrite <- app_assoc. f_equal. simpl. f_equal. apply take_drop.
  - simpl in *. rewrite length_drop. lia.
Qed.

Lemma download_writes_response (response : list Byte.byte) :
  read_chunks CHUNK_SIZE (S (length response)) response [] = response.
Proof. apply read_chunks_all; [unfold CHUNK_SIZE|]; lia. Qed.


(** ** Handlers that leave the sidecar alone *)

Lemma sidecar_kept_refl (s : consumer) : sidecar_kept s s.
Proof.
  unfold sidecar_kept. split_and!; try done.
  exists []. by rewrite app_nil_r.
Qed.

Lemma sidecar_kept_trans (s1 s2 s3 : consumer) :
  sidecar_kept s1 s2 → sidecar_kept s2 s3 → sidecar_kept s1 s3.
Proof.
  intros (Hf & Ha & Hs & Hl & calls & He & Hc) (Hf' & Ha' & Hs' & Hl' & calls' & He' & Hc').
  unfold sidecar_kept. split_and!; try congruence.
  exists (calls ++ calls'). split.
  - by rewrite He', He, app_assoc.
  - by apply Forall_app.
Qed.

Lemma keeps_ret {A : Type} (a : A) : keeps_sidecar (mret a).
Proof. intros s r s' [= <- <-]. apply sidecar_kept_refl. Qed.

Lemma keeps_pass : keeps_sidecar pass.
Proof. apply keeps_ret. Qed.

Lemma keeps_raise {A : Type} (e : exn) : keeps_sidecar (raise (A := A) e).
Proof. intros s r s' [= <- <-]. apply sidecar_kept_refl. Qed.

Lemma keeps_lift {A : Type} (r : result A) : keeps_sidecar (lift r).
Proof. intros s r' s' [= <- <-]. apply sidecar_kept_refl. Qed.

Lemma keeps_get_state : keeps_sidecar get_state.
Proof. intros s r s' [= <- <-]. apply sidecar_kept_refl. Qed.

Lemma keeps_log (c : effect) : changes_sidecar c = false → keeps_sidecar (log c).
Proof.
  intros Hc s r s' [= <- <-]. destruct s. unfold sidecar_kept. simpl.
  split_and!; try done. exists [c]. split; [done|]. by constructor.
Qed.

Lemma keeps_set_local_files (f : consumer → gmap string (list Byte.byte)) :
  keeps_sidecar (modify (λ s, set_local_files (f s) s)).
Proof.
  intros s r s' [= <- <-]. destruct s. unfold sidecar_kept. simpl.
  split_and!; try done. exists []. by rewrite app_nil_r.
Qed.

Lemma keeps_bind {A B : Type} (m : M A) (f : A → M B) :
  keeps_sidecar m → (∀ a, keeps_sidecar (f a)) → keeps_sidecar (m ≫= f).
Proof.
  intros Hm Hf s r s' Hrun. cbv [mbind M_bind] in Hrun.
  destruct (m s) as [[a|e] s1] eqn:Hms.
  - eapply sidecar_kept_trans; [by eapply Hm | by eapply Hf].
  - injection Hrun as <- <-. by eapply Hm.
Qed.

Lemma keeps_on_raise {A : Type} (m : M A) :
  keeps_sidecar m → keeps_sidecar_on_raise m.
Proof. intros Hm s e s' Hrun. by eapply Hm. Qed.

Lemma keeps_on_raise_bind {A B : Type} (m : M A) (f : A → M B) :
  keeps_sidecar m → (∀ a, keeps_sidecar_on_raise (f a)) →
  keeps_sidecar_on_raise (m ≫= f).
Proof.
  intros Hm Hf s e s' Hrun. cbv [mbind M_bind] in Hrun.
  destruct (m s) as [[a|e'] s1] eqn:Hms.
  - eapply sidecar_kept_trans; [by eapply Hm | by eapply Hf].
  - injection Hrun as <- <-. by eapply Hm.
Qed.

(** Decomposes a handler into the steps above. *)
Ltac keeps :=
  repeat first
    [ apply keeps_bind; [|intros ?]
    | apply keeps_ret
    | apply keeps_pass
    | apply keeps_raise
    | apply keeps_lift
    | apply keeps_get_state
    | apply keeps_log; reflexivity
    | apply keeps_set_local_files
    | match goal with
      | |- keeps_sidecar (match ?x with _ => _ end) => destruct x
      | |- keeps_sidecar (if ?x then _ else _) => destruct x
      end
    | progress unfold list_files, pull, read_file, write_file ].

Section Provisioning_properties.

Variable urlopen : string → option (list Byte.byte).
Variable zip_members : list Byte.byte → option (list (string * list Byte.byte)).

(** C1: when the binary is not in the sidecar and the archive the event's
    URL serves does not have the pinned digest, [_obtain_promtail] raises
    [PromtailDigestError] after the download and the check: the sidecar's
    files are as before, and neither [extractall] nor [push] was called. *)
Theorem digest_mismatch_raises (ev : event) (s : consumer) (url : string)
    (archive : list Byte.byte) :
  sidecar_files s !! WORKLOAD_BINARY_PATH = None →
  event_data_item ev "promtail_binary_zip_url" = Ok (VStr url) →
  urlopen url = Some archive →
  SHA256.hexdigest archive ≠ BINARY_SHA25SUM →
  ∃ s', _obtain_promtail urlopen zip_members ev s =
          (Raise (PromtailDigestError "Promtail bnary sha256sum mismatch"), s') ∧
        sidecar_files s' = sidecar_files s ∧
        sidecar_files s' !! WORKLOAD_BINARY_PATH = None ∧
        local_files s' = <[BINARY_ZIP_PATH := archive]> (local_files s) ∧
        effects s' = effects s ++
          [EListFiles BINARY_DIR "promtail-linux-amd64"; EUrlopen url;
           EWriteFile BINARY_ZIP_PATH; EReadFile BINARY_ZIP_PATH;
           ESha256 BINARY_ZIP_PATH].
Proof.
  intros Habsent Hurl Hopen Hsha. destruct s. fields Habsent.
  unfold _obtain_promtail, _is_promtail_binary_in_workload, _download_promtail,
    _check_sha256sum.
  run. rewrite binary_path, Habsent. cbv iota beta.
  rewrite bool_decide_false by done. cbv iota beta.
  rewrite Hurl, Hopen. cbv iota beta.
  rewrite lookup_insert_eq, download_writes_response. cbv iota beta.
  rewrite bool_decide_false by done. cbv iota beta.
  eexists. split; [reflexivity|]. run.
  split_and!; try done. by rewrite <- !app_assoc.
Qed.

(** C9: when the binary is in the sidecar, [_obtain_promtail] returns at
    once: its only call is the [list_files] that finds the binary. *)
Theorem obtain_promtail_fast_path (ev : event) (s : consumer) :
  is_Some (sidecar_files s !! WORKLOAD_BINARY_PATH) →
  _obtain_promtail urlopen zip_members ev s =
    (Ok tt, set_effects (effects s ++ [EListFiles BINARY_DIR "promtail-linux-amd64"]) s).
Proof.
  intros [f Hf]. destruct s. fields Hf.
  unfold _obtain_promtail, _is_promtail_binary_in_workload.
  run. rewrite binary_path, Hf. cbv iota beta.
  rewrite bool_decide_true by done. reflexivity.
Qed.

Lemma _download_promtail_keeps (ev : event) :
  keeps_sidecar (_download_promtail urlopen ev).
Proof.
  unfold _download_promtail. keeps.
Qed.

Lemma _check_sha256sum_keeps (filename sha256sum : string) :
  keeps_sidecar (_check_sha256sum filename sha256sum).
Proof. unfold _check_sha256sum. keeps. Qed.

Lemma _unzip_binary_keeps (zip_file binary_dir : string) :
  keeps_sidecar (_unzip_binary zip_members zip_file binary_dir).
Proof.
  unfold _unzip_binary. keeps.
Qed.

(** An exception out of [_obtain_promtail] leaves the sidecar and the
    registry as they were: the only call that changes the sidecar is the
    last one, the [push] of the binary, and it does not raise. *)
Lemma _obtain_promtail_raise_keeps (ev : event) :
  keeps_sidecar_on_raise (_obtain_promtail urlopen zip_members ev).
Proof.
  unfold _obtain_promtail.
  apply keeps_on_raise_bind; [unfold _is_promtail_binary_in_workload; keeps|].
  intros [|]; [apply keeps_on_raise, keeps_ret|].
  apply keeps_on_raise_bind; [apply _download_promtail_keeps|intros _].
  apply keeps_on_raise_bind; [apply _check_sha256sum_keeps|intros ok].
  destruct (negb ok); [apply keeps_on_raise, keeps_raise|].
  apply keeps_on_raise_bind; [apply _unzip_binary_keeps|intros _].
  unfold _upload_binary.
  apply keeps_on_raise_bind; [keeps|intros f].
  intros s e s' Hrun. discriminate.
Qed.

(** C2: when the peer has published [data] and [_obtain_promtail] raises
    [PromtailDigestError], the handler raises it at once: the sidecar's
    files, the registry, the services and the layers are as before the
    event, and no call that changes the sidecar was made. *)
Theorem relation_changed_aborts_on_digest_error (ev : event) (s s' : consumer)
    (t : json_text) (msg : string) :
  ev_data ev !! "data" = Some t → text_truthy t = true →
  _obtain_promtail urlopen zip_members ev s = (Raise (PromtailDigestError msg), s') →
  _on_log_proxy_relation_changed urlopen zip_members ev s = (Raise (PromtailDigestError msg), s') ∧
  sidecar_files s' = sidecar_files s ∧
  grafana_agents s' = grafana_agents s ∧
  sidecar_services s' = sidecar_services s ∧
  sidecar_layers s' = sidecar_layers s ∧
  ∃ calls, effects s' = effects s ++ calls ∧
           Forall (λ c, changes_sidecar c = false) calls.
Proof.
  intros Hdata Htruthy Hrun. split.
  - unfold _on_log_proxy_relation_changed. rewrite Hdata, Htruthy.
    cbv [mbind M_bind]. by rewrite Hrun.
  - exact (_obtain_promtail_raise_keeps ev s _ s' Hrun).
Qed.

End Provisioning_properties.

Lemma digest_mismatch_raises_witness :
  ∃ s', _obtain_promtail sample_urlopen sample_zip_members sample_changed_event
          fresh_consumer =
          (Raise (PromtailDigestError "Promtail bnary sha256sum mismatch"), s') ∧
        sidecar_files s' = sidecar_files fresh_consumer ∧
        sidecar_files s' !! WORKLOAD_BINARY_PATH = None ∧
        local_files s' = <[BINARY_ZIP_PATH := [Byte.x50; Byte.x4b]]> (local_files fresh_consumer) ∧
        effects s' = effects fresh_consumer ++
          [EListFiles BINARY_DIR "promtail-linux-amd64";
           EUrlopen PROMTAIL_BINARY_ZIP_URL;
           EWriteFile BINARY_ZIP_PATH; EReadFile BINARY_ZIP_PATH;
           ESha256 BINARY_ZIP_PATH].
Proof.
  apply (digest_mismatch_raises sample_urlopen sample_zip_members
           sample_changed_event fresh_consumer PROMTAIL_BINARY_ZIP_URL
           [Byte.x50; Byte.x4b]).
  - vm_compute. reflexivity.
  - vm_compute. reflexivity.
  - vm_compute. reflexivity.
  - vm_compute. discriminate.
Defined.

Lemma obtain_promtail_fast_path_witness :
  _obtain_promtail sample_urlopen sample_zip_members sample_changed_event
    serving_consumer =
    (Ok tt, set_effects [EListFiles BINARY_DIR "promtail-linux-amd64"] serving_consumer).
Proof.
  apply (obtain_promtail_fast_path sample_urlopen sample_zip_members
           sample_changed_event serving_consumer).
  vm_compute. eexists. reflexivity.
Defined.

Lemma relation_changed_aborts_on_digest_error_witness :
  let s' := (_obtain_promtail sample_urlopen sample_zip_members sample_changed_event
               fresh_consumer).2 in
  _on_log_proxy_relation_changed sample_urlopen sample_zip_members
    sample_changed_event fresh_consumer =
    (Raise (PromtailDigestError "Promtail bnary sha256sum mismatch"), s') ∧
  sidecar_files s' = sidecar_files fresh_consumer ∧
  grafana_agents s' = grafana_agents fresh_consumer ∧
  sidecar_services s' = sidecar_services fresh_consumer ∧
  sidecar_layers s' = sidecar_layers fresh_consumer ∧
  ∃ calls, effects s' = effects fresh_consumer ++ calls ∧
           Forall (λ c, changes_sidecar c = false) calls.
Proof.
  intros s'.
  apply (relation_changed_aborts_on_digest_error sample_urlopen sample_zip_members
           sample_changed_event fresh_consumer s'
           (json_dumps (VDict {[
              "loki_push_api" := VStr "http://10.0.0.5:3100/loki/api/v1/push";
              "promtail_binary_zip_url" := VStr PROMTAIL_BINARY_ZIP_URL ]}))
           "Promtail bnary sha256sum mismatch").
  - vm_compute. reflexivity.
  - reflexivity.
  - vm_compute. reflexivity.
Defined.

(** ** Departures *)

(** What [_remove_client] makes of a clients list. *)
Lemma _remove_client_list (d : gmap string value) (cs : list value) (u : value) :
  d !! "clients" = Some (VList cs) →
  ∃ d', _remove_client (VDict d) u = Ok (VDict d') ∧
        d' !! "clients" = Some (VList (filter (λ c, py_ne c (client_entry u)) cs)).
Proof.
  intros Hd. simpl. rewrite Hd. destruct cs as [|c cs]; simpl.
  - by exists d.
  - eexists. split; [done|]. by rewrite lookup_insert_eq.
Qed.

(** C7: the departure of a unit the registry does not know raises
    [KeyError]: in [_update_agents_list], and in the handler, where the
    registry is looked up first; the state is as before. *)
Theorem departure_of_unknown_unit_raises (ev : event) (s : consumer) :
  ev_class ev = RelationDepartedEvent →
  grafana_agents s !! ev_unit ev = None →
  _update_agents_list ev s = (Raise (KeyError (ev_unit ev)), s) ∧
  _on_log_proxy_relation_departed ev s = (Raise (KeyError (ev_unit ev)), s).
Proof.
  intros Hclass Hunit. split.
  - unfold _update_agents_list. cbv [mbind M_bind get_state].
    by rewrite Hclass, Hunit.
  - unfold _on_log_proxy_relation_departed, _update_config, _build_config_file.
    rewrite Hclass. cbv [mbind M_bind get_state]. by rewrite Hunit.
Qed.

Lemma departure_of_unknown_unit_raises_witness :
  _update_agents_list sample_departed_event fresh_consumer =
    (Raise (KeyError "grafana-agent-k8s/0"), fresh_consumer) ∧
  _on_log_proxy_relation_departed sample_departed_event fresh_consumer =
    (Raise (KeyError "grafana-agent-k8s/0"), fresh_consumer).
Proof.
  apply (departure_of_unknown_unit_raises sample_departed_event fresh_consumer).
  - reflexivity.
  - vm_compute. reflexivity.
Defined.

(** C3, as stated, fails.  The handler does not call [stop] or [restart]
    at every departure: not at that of a unit of the registry when the
    configuration on the sidecar has no [clients] (the state after a join
    and a relation-created event), and not at that of a unit the registry
    does not know (a second departure of the same unit) although the
    configuration has a clients list. *)
Lemma relation_departed_without_stop_or_restart :
  ¬ (∀ (ev : event) (s : consumer),
       ev_class ev = RelationDepartedEvent →
       is_Some (grafana_agents s !! ev_unit ev) →
       calls_stop_or_restart (_on_log_proxy_relation_departed ev) s) ∧
  ¬ (∀ (ev : event) (s : consumer),
       ev_class ev = RelationDepartedEvent →
       (∃ d cs, sidecar_files s !! CONFIG_PATH = Some (YamlText (VDict d)) ∧
                d !! "clients" = Some (VList cs)) →
       calls_stop_or_restart (_on_log_proxy_relation_departed ev) s).
Proof.
  split; intros H.
  - destruct (H sample_departed_event recreated_consumer eq_refl)
      as (r & s' & calls & Hrun & Hcalls & Hin).
    { vm_compute. by eexists. }
    vm_compute in Hrun. injection Hrun as <- <-.
    apply (app_inv_head [EPush CONFIG_PATH]) in Hcalls. subst calls.
    destruct Hin as [Hin|Hin]; repeat (apply elem_of_cons in Hin as [[=]|Hin]);
      by apply elem_of_nil in Hin.
  - destruct (H sample_departed_event departed_consumer eq_refl)
      as (r & s' & calls & Hrun & Hcalls & Hin).
    { eexists _, _. split; vm_compute; reflexivity. }
    vm_compute in Hrun. injection Hrun as <- <-.
    apply (app_inv_head [EPull CONFIG_PATH; EPush CONFIG_PATH; EPull CONFIG_PATH;
                         ERestart SERVICE_NAME]) in Hcalls. subst calls.
    destruct Hin as [Hin|Hin]; by apply elem_of_nil in Hin.
Qed.

(** C3 (amended): when the departing unit is in the registry and the
    configuration on the sidecar has a clients list, the handler writes
    back the configuration [_remove_client] gives, removes the unit from
    the registry, and then calls [stop] if the clients list it reads back
    is empty and [restart] otherwise.  When a layer declares the promtail
    service the handler returns, with the service stopped or running;
    when none does, Pebble's error leaves the handler and the services
    are as before. *)
Theorem relation_departed_stops_or_restarts (ev : event) (s : consumer)
    (url : value) (d : gmap string value) (cs : list value) :
  ev_class ev = RelationDepartedEvent →
  grafana_agents s !! ev_unit ev = Some url →
  sidecar_files s !! CONFIG_PATH = Some (YamlText (VDict d)) →
  d !! "clients" = Some (VList cs) →
  let remaining := filter (λ c, py_ne c (client_entry url)) cs in
  ∃ config r s',
    _remove_client (VDict d) url = Ok config ∧
    py_getitem config "clients" = Ok (VList remaining) ∧
    _on_log_proxy_relation_departed ev s = (r, s') ∧
    sidecar_files s' = <[CONFIG_PATH := yaml_dump config]> (sidecar_files s) ∧
    grafana_agents s' = delete (ev_unit ev) (grafana_agents s) ∧
    sidecar_layers s' = sidecar_layers s ∧
    effects s' = effects s ++
      [EPull CONFIG_PATH; EPush CONFIG_PATH; EPull CONFIG_PATH;
       if bool_decide (remaining = []) then EStop SERVICE_NAME
       else ERestart SERVICE_NAME] ∧
    (service_declared (sidecar_layers s) SERVICE_NAME = true →
     r = Ok tt ∧
     sidecar_services s' =
       <[SERVICE_NAME := if bool_decide (remaining = []) then Stopped else Running]>
         (sidecar_services s)) ∧
    (service_declared (sidecar_layers s) SERVICE_NAME = false →
     r = Raise APIError ∧ sidecar_services s' = sidecar_services s).
Proof.
  intros Hclass Hunit Hfile Hd remaining.
  destruct (_remove_client_list d cs url Hd) as (d' & Hrem & Hd').
  exists (VDict d').
  destruct s. fields Hunit. fields Hfile.
  unfold _on_log_proxy_relation_departed, _update_config, _build_config_file,
    _update_agents_list, _current_config.
  rewrite Hclass. run. rewrite Hunit, Hfile. cbv iota beta.
  unfold yaml_safe_load at 1. cbv iota beta. rewrite Hrem. cbv iota beta.
  rewrite Hunit, lookup_insert_eq. cbv iota beta.
  unfold yaml_dump, yaml_safe_load, py_getitem. rewrite Hd'. cbv iota beta.
  fold remaining. unfold py_len.
  destruct remaining as [|c rest]; cbv iota beta.
  - rewrite !bool_decide_true by done.
    destruct (service_declared sidecar_layers0 SERVICE_NAME);
      eexists _, _; split_and!; try done; cbn [effects]; by rewrite <- !app_assoc.
  - rewrite !bool_decide_false by done.
    destruct (service_declared sidecar_layers0 SERVICE_NAME);
      eexists _, _; split_and!; try done; cbn [effects]; by rewrite <- !app_assoc.
Qed.

Lemma relation_departed_stops_or_restarts_witness :
  ∃ config r s',
    _remove_client
      (VDict {[ "clients" :=
                  VList [client_entry (VStr "http://10.0.0.5:3100/loki/api/v1/push")] ]})
      (VStr "http://10.0.0.5:3100/loki/api/v1/push") = Ok config ∧
    py_getitem config "clients" = Ok (VList []) ∧
    _on_log_proxy_relation_departed sample_departed_event serving_consumer = (r, s') ∧
    sidecar_files s' =
      <[CONFIG_PATH := yaml_dump config]> (sidecar_files serving_consumer) ∧
    grafana_agents s' = ∅ ∧
    sidecar_layers s' = {[ "promtail" := promtail_layer ]} ∧
    effects s' = [EPull CONFIG_PATH; EPush CONFIG_PATH; EPull CONFIG_PATH;
                  EStop SERVICE_NAME] ∧
    (service_declared (sidecar_layers serving_consumer) SERVICE_NAME = true →
     r = Ok tt ∧ sidecar_services s' = {[ SERVICE_NAME := Stopped ]}) ∧
    (service_declared (sidecar_layers serving_consumer) SERVICE_NAME = false →
     r = Raise APIError ∧ sidecar_services s' = sidecar_services serving_consumer).
Proof.
  apply (relation_departed_stops_or_restarts sample_departed_event serving_consumer
           (VStr "http://10.0.0.5:3100/loki/api/v1/push")
           {[ "clients" :=
                VList [client_entry (VStr "http://10.0.0.5:3100/loki/api/v1/push")] ]}
           [client_entry (VStr "http://10.0.0.5:3100/loki/api/v1/push")]).
  - reflexivity.
  - vm_compute. reflexivity.
  - vm_compute. reflexivity.
  - vm_compute. reflexivity.
Defined.

(** * Further properties *)

(** ** The clients list under removal *)

Lemma filter_py_ne_none (e : value) (cs : list value) :
  Forall (λ c, py_eq c e = false) cs → filter (λ c, py_ne c e) cs = cs.
Proof.
  induction 1 as [|c cs Hc _ IH]; [done|].
  rewrite filter_cons_True; [by rewrite IH|]. unfold py_ne. by rewrite Hc.
Qed.

Lemma filter_py_ne_Forall (e : value) (cs : list value) :
  Forall (λ c, py_eq c e = false) (filter (λ c, py_ne c e) cs).
Proof.
  apply Forall_forall. intros c [Hc _]%list_elem_of_filter.
  unfold py_ne in Hc. by destruct (py_eq c e).
Qed.

Lemma py_eq_client_entry_ne (U V : string) :
  U ≠ V → py_eq (client_entry (VStr U)) (client_entry (VStr V)) = false.
Proof.
  intros Hne. unfold client_entry. simpl.
  rewrite bool_decide_true by done.
  rewrite map_fold_singleton, lookup_singleton_eq. simpl.
  by rewrite bool_decide_false.
Qed.

(** X1: removing a URL that none of the clients has returns the document
    as it was given. *)
Theorem remove_unknown_client (d : gmap string value) (cs : list value) (u : value) :
  clients_of d = Some cs →
  Forall (λ c, py_eq c (client_entry u) = false) cs →
  _remove_client (VDict d) u = Ok (VDict d).
Proof.
  intros [[Hd ->]|Hd]%clients_of_lookup Hnone; simpl; rewrite Hd; [done|].
  destruct cs as [|c cs]; [done|]. simpl.
  rewrite filter_py_ne_none by done. by rewrite insert_id.
Qed.

Lemma remove_unknown_client_witness :
  _remove_client (VDict sample_config) (VStr "http://b") = Ok (VDict sample_config).
Proof.
  apply (remove_unknown_client sample_config [client_entry (VStr "http://a")]).
  - vm_compute. reflexivity.
  - constructor; [vm_compute; reflexivity | constructor].
Defined.

(** X2: in the document [_remove_client] returns, no entry of the clients
    list is equal to [{"url": agent_url}]: every copy is gone. *)
Theorem remove_client_leaves_no_match (d d' : gmap string value) (u : value)
    (cs' : list value) :
  _remove_client (VDict d) u = Ok (VDict d') →
  d' !! "clients" = Some (VList cs') →
  Forall (λ c, py_eq c (client_entry u) = false) cs'.
Proof.
  simpl. destruct (d !! "clients") as [c|] eqn:Hd.
  - destruct (truthy c) eqn:Htruthy.
    + destruct (py_iter c) as [cs|]; [|discriminate]. simpl.
      intros [= <-]. rewrite lookup_insert_eq. intros [= <-].
      apply filter_py_ne_Forall.
    + intros [= <-]. rewrite Hd. intros [= ->]. simpl in Htruthy.
      destruct cs'; [constructor|done].
  - intros [= <-]. by rewrite Hd.
Qed.

Lemma remove_client_leaves_no_match_witness :
  Forall (λ c, py_eq c (client_entry (VStr "http://a")) = false)
    [client_entry (VStr "http://b")].
Proof.
  apply (remove_client_leaves_no_match sample_config_twice
           (<["clients" := VList [client_entry (VStr "http://b")]]> sample_config_twice)
           (VStr "http://a") [client_entry (VStr "http://b")]).
  - vm_compute. reflexivity.
  - vm_compute. reflexivity.
Defined.

(** X3: [_remove_client] is idempotent: run again on the document it
    returned, it returns that document. *)
Theorem remove_client_idempotent (doc u r : value) :
  _remove_client doc u = Ok r → _remove_client r u = Ok r.
Proof.
  destruct doc as [| | | | |d]; try discriminate. simpl.
  destruct (d !! "clients") as [c|] eqn:Hd.
  - destruct (truthy c) eqn:Htruthy.
    + destruct (py_iter c) as [cs|]; [|discriminate]. simpl.
      intros [= <-]. simpl. rewrite lookup_insert_eq.
      destruct (filter _ cs) as [|c' cs'] eqn:Hfilter; [done|]. simpl.
      rewrite <- Hfilter, filter_py_ne_none by apply filter_py_ne_Forall.
      by rewrite insert_insert_eq.
    + intros [= <-]. simpl. by rewrite Hd, Htruthy.
  - intros [= <-]. simpl. by rewrite Hd.
Qed.

Lemma remove_client_idempotent_witness :
  _remove_client (VDict (<["clients" := VList []]> sample_config)) (VStr "http://a") =
    Ok (VDict (<["clients" := VList []]> sample_config)).
Proof.
  apply (remove_client_idempotent (VDict sample_config)).
  vm_compute. reflexivity.
Defined.

(** X4: adding one URL and removing another commute: on a document whose
    [clients] is a list or is missing, either order gives the same
    document. *)
Theorem add_remove_commute (d : gmap string value) (cs : list value) (U V : string) :
  clients_of d = Some cs → U ≠ V →
  (_add_client (VDict d) (VStr U) ≫= λ doc, _remove_client doc (VStr V)) =
  (_remove_client (VDict d) (VStr V) ≫= λ doc, _add_client doc (VStr U)).
Proof.
  intros Hcs Hne. rewrite (_add_client_spec _ _ _ Hcs). simpl.
  rewrite lookup_insert_eq.
  assert (truthy (VList (cs ++ [client_entry (VStr U)])) = true) as ->.
  { simpl. rewrite bool_decide_false; [done|]. by destruct cs. }
  simpl. rewrite filter_app, filter_cons_True, filter_nil, insert_insert_eq.
  2:{ unfold py_ne. by rewrite py_eq_client_entry_ne. }
  destruct (clients_of_lookup _ _ Hcs) as [[Hd ->]|Hd]; rewrite Hd.
  - simpl. by rewrite Hd.
  - destruct cs as [|c cs]; simpl.
    + by rewrite Hd.
    + by rewrite lookup_insert_eq, insert_insert_eq.
Qed.

Lemma add_remove_commute_witness :
  (_add_client (VDict sample_config) (VStr "http://b")
     ≫= λ doc, _remove_client doc (VStr "http://a")) =
  (_remove_client (VDict sample_config) (VStr "http://a")
     ≫= λ doc, _add_client doc (VStr "http://b")).
Proof.
  apply (add_remove_commute sample_config [client_entry (VStr "http://a")]).
  - vm_compute. reflexivity.
  - discriminate.
Defined.

(** ** The registry *)

(** X5: recording a unit and then forgetting it leaves the registry
    without the unit, whatever it held for it before; a registry that did
    not know the unit is back as it was, and so is the whole state. *)
Theorem record_then_forget (ev_c ev_d : event) (s : consumer) (url : value) :
  ev_class ev_c = RelationChangedEvent →
  ev_class ev_d = RelationDepartedEvent →
  ev_unit ev_d = ev_unit ev_c →
  event_data_item ev_c "loki_push_api" = Ok url →
  (_update_agents_list ev_c;; _update_agents_list ev_d) s =
    (Ok tt, set_grafana_agents (delete (ev_unit ev_c) (grafana_agents s)) s) ∧
  (grafana_agents s !! ev_unit ev_c = None →
   (_update_agents_list ev_c;; _update_agents_list ev_d) s = (Ok tt, s)).
Proof.
  intros Hc Hd Hunit Hurl.
  assert ((_update_agents_list ev_c;; _update_agents_list ev_d) s =
          (Ok tt, set_grafana_agents (delete (ev_unit ev_c) (grafana_agents s)) s))
    as Hrun.
  { destruct s. unfold _update_agents_list. rewrite Hc, Hd, Hunit, Hurl. run.
    rewrite lookup_insert_eq. cbv iota beta. by rewrite delete_insert_eq. }
  split; [done|]. intros Hnone. rewrite Hrun. destruct s. fields Hnone.
  unfold set_grafana_agents. cbn. by rewrite delete_id.
Qed.

Lemma record_then_forget_witness :
  (_update_agents_list sample_changed_event;;
   _update_agents_list sample_departed_event) fresh_consumer = (Ok tt, fresh_consumer).
Proof.
  apply (record_then_forget sample_changed_event sample_departed_event fresh_consumer
           (VStr "http://10.0.0.5:3100/loki/api/v1/push")).
  - reflexivity.
  - reflexivity.
  - reflexivity.
  - vm_compute. reflexivity.
  - vm_compute. reflexivity.
Defined.

(** ** The two ends of the relation *)

(** X6: what a provider publishes is what a consumer reads: an event that
    carries the published relation data passes the handler's test, and its
    two items are the provider's push URL and the promtail URL. *)
Theorem published_data_is_read (p : provider) (unit : string) :
  unit_data p !! "data" = None →
  ∃ p1 t,
    LogProxyProvider._on_log_proxy_relation_changed p = Ok p1 ∧
    ev_data (Event RelationChangedEvent unit (unit_data p1)) !! "data" = Some t ∧
    text_truthy t = true ∧
    event_data_item (Event RelationChangedEvent unit (unit_data p1)) "loki_push_api" =
      Ok (VStr ("http://" +:+ LogProxyProvider.unit_ip p +:+ ":" +:+
                pretty (_http_listen_port p) +:+ "/loki/api/v1/push")) ∧
    event_data_item (Event RelationChangedEvent unit (unit_data p1))
      "promtail_binary_zip_url" = Ok (VStr PROMTAIL_BINARY_ZIP_URL).
Proof.
  intros Hnone. unfold LogProxyProvider._on_log_proxy_relation_changed.
  rewrite Hnone. simpl. eexists _, _. split; [done|].
  unfold event_data_item. simpl. rewrite lookup_insert_eq. simpl.
  split_and!; done.
Qed.

Lemma published_data_is_read_witness :
  ∃ p1 t,
    LogProxyProvider._on_log_proxy_relation_changed sample_provider = Ok p1 ∧
    ev_data (Event RelationChangedEvent "grafana-agent-k8s/0" (unit_data p1)) !! "data"
      = Some t ∧
    text_truthy t = true ∧
    event_data_item (Event RelationChangedEvent "grafana-agent-k8s/0" (unit_data p1))
      "loki_push_api" = Ok (VStr "http://10.0.0.5:3100/loki/api/v1/push") ∧
    event_data_item (Event RelationChangedEvent "grafana-agent-k8s/0" (unit_data p1))
      "promtail_binary_zip_url" = Ok (VStr PROMTAIL_BINARY_ZIP_URL).
Proof.
  apply (published_data_is_read sample_provider "grafana-agent-k8s/0").
  reflexivity.
Defined.

(** ** Provisioning, step by step *)

Lemma bind_Ok_inv {A B : Type} (m : M A) (f : A → M B) (s s' : consumer) (b : B) :
  (m ≫= f) s = (Ok b, s') →
  ∃ a s1, m s = (Ok a, s1) ∧ f a s1 = (Ok b, s').
Proof.
  cbv [mbind M_bind]. destruct (m s) as [[a|e] s1]; [|discriminate].
  intros Hf. by exists a, s1.
Qed.

Lemma run_is_promtail_binary_in_workload (s : consumer) :
  _is_promtail_binary_in_workload s =
    (Ok (bool_decide (is_Some (sidecar_files s !! WORKLOAD_BINARY_PATH))),
     set_effects (effects s ++ [EListFiles BINARY_DIR "promtail-linux-amd64"]) s).
Proof.
  destruct s. unfold _is_promtail_binary_in_workload. run.
  rewrite binary_path. destruct (_ !! WORKLOAD_BINARY_PATH) as [f|].
  - rewrite !bool_decide_true; [done|by eexists|done].
  - rewrite !bool_decide_false; [done|by intros [? ?]|done].
Qed.

Section Provisioning_steps.

Variable urlopen : string → option (list Byte.byte).
Variable zip_members : list Byte.byte → option (list (string * list Byte.byte)).

(** How [_obtain_promtail] can end: in an exception or on the fast path,
    with the sidecar as it was; or after the [push] of the binary, the one
    call that changes the sidecar. *)
Lemma _obtain_promtail_outcome (ev : event) (s s' : consumer) (r : result unit) :
  _obtain_promtail urlopen zip_members ev s = (r, s') →
  (∃ e, r = Raise e ∧ sidecar_kept s s') ∨
  (r = Ok tt ∧ is_Some (sidecar_files s !! WORKLOAD_BINARY_PATH) ∧ sidecar_kept s s') ∨
  (r = Ok tt ∧ ∃ s1 f,
     sidecar_kept s s1 ∧
     s' = set_sidecar_files
            (<[WORKLOAD_BINARY_PATH := Bytes f 493]> (sidecar_files s1))
            (set_effects (effects s1 ++ [EPush WORKLOAD_BINARY_PATH]) s1)).
Proof.
  destruct r as [[]|e]; intros Hrun.
  2:{ left. exists e. split; [done|].
      exact (_obtain_promtail_raise_keeps urlopen zip_members ev s e s' Hrun). }
  right. unfold _obtain_promtail in Hrun.
  apply bind_Ok_inv in Hrun as (present & s1 & Hpresent & Hrun).
  rewrite run_is_promtail_binary_in_workload in Hpresent.
  injection Hpresent as <- <-.
  pose proof (keeps_log (EListFiles BINARY_DIR "promtail-linux-amd64") eq_refl
                s (Ok tt) _ eq_refl) as Hs1.
  case_bool_decide as Hin.
  - left. injection Hrun as <-. done.
  - right.
    apply bind_Ok_inv in Hrun as ([] & s2 & Hdownload & Hrun).
    apply bind_Ok_inv in Hrun as (ok & s3 & Hcheck & Hrun).
    destruct ok; [|discriminate]. simpl negb in Hrun. cbv iota in Hrun.
    apply bind_Ok_inv in Hrun as ([] & s4 & Hunzip & Hrun).
    unfold _upload_binary in Hrun.
    apply bind_Ok_inv in Hrun as (f & s5 & Hread & Hpush).
    split; [done|]. exists s5, f. split.
    + eapply sidecar_kept_trans; [exact Hs1|].
      eapply sidecar_kept_trans; [by eapply _download_promtail_keeps|].
      eapply sidecar_kept_trans; [by eapply _check_sha256sum_keeps|].
      eapply sidecar_kept_trans; [by eapply _unzip_binary_keeps|].
      assert (keeps_sidecar (read_file WORKLOAD_BINARY_PATH)) as Hkeeps by keeps.
      exact (Hkeeps _ _ _ Hread).
    + destruct s5. by injection Hpush as <-.
Qed.

(** X7: when [_obtain_promtail] returns, the binary is in the sidecar at
    the install path, so that the next call takes the fast path. *)
Theorem obtain_promtail_installs (ev : event) (s s' : consumer) :
  _obtain_promtail urlopen zip_members ev s = (Ok tt, s') →
  is_Some (sidecar_files s' !! WORKLOAD_BINARY_PATH) ∧
  ∃ s'', _obtain_promtail urlopen zip_members ev s' = (Ok tt, s'') ∧
         sidecar_files s'' = sidecar_files s' ∧
         effects s'' = effects s' ++ [EListFiles BINARY_DIR "promtail-linux-amd64"].
Proof.
  intros Hrun.
  assert (is_Some (sidecar_files s' !! WORKLOAD_BINARY_PATH)) as Hin.
  { destruct (_obtain_promtail_outcome _ _ _ _ Hrun)
      as [(e & [=] & _)|[(_ & Hin & Hkept)|(_ & s1 & f & _ & ->)]].
    - destruct Hkept as (-> & _). done.
    - destruct s1. cbn. rewrite lookup_insert_eq. by eexists. }
  split; [done|].
  destruct Hin as [f Hf]. destruct s'. fields Hf. eexists.
  unfold _obtain_promtail, _is_promtail_binary_in_workload.
  run. rewrite binary_path, Hf. cbv iota beta.
  rewrite bool_decide_true by done. done.
Qed.

(** X8: however [_obtain_promtail] ends, the only file of the sidecar it
    can have changed is the binary: every other file, the configuration
    among them, the services, the layers and the registry are as before. *)
Theorem obtain_promtail_touches_the_binary_only (ev : event) (s s' : consumer)
    (r : result unit) :
  _obtain_promtail urlopen zip_members ev s = (r, s') →
  (∀ path, path ≠ WORKLOAD_BINARY_PATH →
           sidecar_files s' !! path = sidecar_files s !! path) ∧
  sidecar_files s' !! CONFIG_PATH = sidecar_files s !! CONFIG_PATH ∧
  grafana_agents s' = grafana_agents s ∧
  sidecar_services s' = sidecar_services s ∧
  sidecar_layers s' = sidecar_layers s.
Proof.
  intros Hrun.
  assert ((∀ path, path ≠ WORKLOAD_BINARY_PATH →
                   sidecar_files s' !! path = sidecar_files s !! path) ∧
          grafana_agents s' = grafana_agents s ∧
          sidecar_services s' = sidecar_services s ∧
          sidecar_layers s' = sidecar_layers s) as (Hfiles & ? & ? & ?).
  { destruct (_obtain_promtail_outcome _ _ _ _ Hrun)
      as [(e & _ & Hkept)|[(_ & _ & Hkept)|(_ & s1 & f & Hkept & ->)]];
      destruct Hkept as (Hf & Ha & Hs & Hl & _).
    - split_and!; try done. intros path _. by rewrite Hf.
    - split_and!; try done. intros path _. by rewrite Hf.
    - destruct s1. cbn in *. split_and!; try done.
      intros path Hpath. by rewrite lookup_insert_ne, Hf. }
  split_and!; try done. by apply Hfiles.
Qed.

(** X9: the download writes the whole response to the staging path,
    however many chunks it takes, over whatever was there. *)
Theorem download_writes_the_response (ev : event) (s : consumer) (url : string)
    (response : list Byte.byte) :
  event_data_item ev "promtail_binary_zip_url" = Ok (VStr url) →
  urlopen url = Some response →
  _download_promtail urlopen ev s =
    (Ok tt,
     set_local_files (<[BINARY_ZIP_PATH := response]> (local_files s))
       (set_effects (effects s ++ [EUrlopen url; EWriteFile BINARY_ZIP_PATH]) s)).
Proof.
  intros Hurl Hopen. destruct s. unfold _download_promtail. run.
  rewrite Hurl. cbv iota beta. rewrite Hopen. cbv iota beta.
  by rewrite download_writes_response, <- app_assoc.
Qed.

End Provisioning_steps.

Lemma obtain_promtail_installs_witness :
  let s' := set_effects [EListFiles BINARY_DIR "promtail-linux-amd64"] serving_consumer in
  is_Some (sidecar_files s' !! WORKLOAD_BINARY_PATH) ∧
  ∃ s'', _obtain_promtail sample_urlopen sample_zip_members sample_changed_event s'
           = (Ok tt, s'') ∧
         sidecar_files s'' = sidecar_files s' ∧
         effects s'' = effects s' ++ [EListFiles BINARY_DIR "promtail-linux-amd64"].
Proof.
  apply (obtain_promtail_installs sample_urlopen sample_zip_members
           sample_changed_event serving_consumer).
  vm_compute. reflexivity.
Defined.

Lemma obtain_promtail_touches_the_binary_only_witness :
  let run := _obtain_promtail sample_urlopen sample_zip_members sample_changed_event
               fresh_consumer in
  (∀ path, path ≠ WORKLOAD_BINARY_PATH →
           sidecar_files run.2 !! path = sidecar_files fresh_consumer !! path) ∧
  sidecar_files run.2 !! CONFIG_PATH = sidecar_files fresh_consumer !! CONFIG_PATH ∧
  grafana_agents run.2 = grafana_agents fresh_consumer ∧
  sidecar_services run.2 = sidecar_services fresh_consumer ∧
  sidecar_layers run.2 = sidecar_layers fresh_consumer.
Proof.
  intros run.
  apply (obtain_promtail_touches_the_binary_only sample_urlopen sample_zip_members
           sample_changed_event fresh_consumer run.2 run.1).
  vm_compute. reflexivity.
Defined.

Lemma download_writes_the_response_witness :
  _download_promtail sample_long_urlopen sample_changed_event fresh_consumer =
    (Ok tt,
     set_local_files
       (<[BINARY_ZIP_PATH := replicate (N.to_nat 20000) Byte.x00]>
          (local_files fresh_consumer))
       (set_effects (effects fresh_consumer ++
                     [EUrlopen PROMTAIL_BINARY_ZIP_URL; EWriteFile BINARY_ZIP_PATH])
          fresh_consumer)).
Proof.
  apply (download_writes_the_response sample_long_urlopen sample_changed_event
           fresh_consumer PROMTAIL_BINARY_ZIP_URL).
  - vm_compute. reflexivity.
  - reflexivity.
Defined.

(** ** Pebble's plan *)

Lemma service_declared_spec (layers : gmap string pebble_layer) (service : string) :
  service_declared layers service = true ↔
  ∃ l layer, layers !! l = Some layer ∧ is_Some (layer_services layer !! service).
Proof.
  unfold service_declared. rewrite existsb_exists. split.
  - intros ([l layer] & Hin & Hsome).
    apply list_elem_of_In, elem_of_map_to_list in Hin.
    apply bool_decide_eq_true in Hsome. by exists l, layer.
  - intros (l & layer & Hl & Hsome). exists (l, layer). split.
    + by apply list_elem_of_In, elem_of_map_to_list.
    + by apply bool_decide_eq_true.
Qed.

Lemma valid_overrides_promtail : valid_overrides promtail_layer = true.
Proof. reflexivity. Qed.

(** The services of the layer after [_add_pebble_layer]: promtail, as
    [_add_pebble_layer] declares it, and the services the layer had. *)
Lemma layer_added_promtail (layers : gmap string pebble_layer) (l : string) :
  layer_services (layer_added layers l promtail_layer) !! SERVICE_NAME
    = Some promtail_service.
Proof.
  unfold layer_added. destruct (layers !! l) as [old|];
    unfold combine_layers, promtail_layer; cbn [layer_services].
  - rewrite lookup_union_with, lookup_singleton_eq.
    by destruct (layer_services old !! SERVICE_NAME).
  - apply lookup_singleton_eq.
Qed.

Lemma layer_added_other (layers : gmap string pebble_layer) (l service : string) :
  service ≠ SERVICE_NAME →
  layer_services (layer_added layers l promtail_layer) !! service
    = layers !! l ≫= λ old, layer_services old !! service.
Proof.
  intros Hne. unfold layer_added. destruct (layers !! l) as [old|];
    unfold combine_layers, promtail_layer; cbn [layer_services option_bind mbind].
  - rewrite lookup_union_with, lookup_singleton_ne by done.
    by destruct (layer_services old !! service).
  - by rewrite lookup_singleton_ne.
Qed.

(** After [_add_pebble_layer] the plan has promtail and the services it
    had. *)
Lemma service_declared_layer_added (layers : gmap string pebble_layer)
    (l service : string) :
  service_declared (<[l := layer_added layers l promtail_layer]> layers) service = true
  ↔ service = SERVICE_NAME ∨ service_declared layers service = true.
Proof.
  rewrite !service_declared_spec. split.
  - intros (l' & layer & Hl & Hsome).
    destruct (decide (service = SERVICE_NAME)) as [|Hne]; [by left|right].
    destruct (decide (l' = l)) as [->|Hl'].
    + rewrite lookup_insert_eq in Hl. injection Hl as <-.
      rewrite layer_added_other in Hsome by done.
      destruct (layers !! l) as [old|] eqn:Hold; [|by destruct Hsome].
      by exists l, old.
    + rewrite lookup_insert_ne in Hl by done. by exists l', layer.
  - intros [->|(l' & layer & Hl & Hsome)].
    + exists l, (layer_added layers l promtail_layer).
      rewrite lookup_insert_eq, layer_added_promtail. by split; [|eexists].
    + destruct (decide (service = SERVICE_NAME)) as [->|Hne].
      { exists l, (layer_added layers l promtail_layer).
        rewrite lookup_insert_eq, layer_added_promtail. by split; [|eexists]. }
      destruct (decide (l' = l)) as [->|Hl'].
      * exists l, (layer_added layers l promtail_layer).
        rewrite lookup_insert_eq, layer_added_other, Hl by done. done.
      * exists l', layer. by rewrite lookup_insert_ne.
Qed.

(** ** The handlers, run to their end *)

(** The departure handler, when the unit is in the registry, the
    configuration has a clients list and a layer declares promtail. *)
Lemma run_relation_departed (ev : event) (s : consumer) (url : value)
    (d : gmap string value) (cs : list value) :
  ev_class ev = RelationDepartedEvent →
  grafana_agents s !! ev_unit ev = Some url →
  sidecar_files s !! CONFIG_PATH = Some (YamlText (VDict d)) →
  d !! "clients" = Some (VList cs) →
  service_declared (sidecar_layers s) SERVICE_NAME = true →
  let remaining := filter (λ c, py_ne c (client_entry url)) cs in
  _on_log_proxy_relation_departed ev s =
    (Ok tt,
     Consumer (model_name s) (model_uuid s) (app_name s) (_container_name s)
       (delete (ev_unit ev) (grafana_agents s))
       (<[CONFIG_PATH := YamlText (VDict (<["clients" := VList remaining]> d))]>
          (sidecar_files s))
       (<[SERVICE_NAME := if bool_decide (remaining = []) then Stopped else Running]>
          (sidecar_services s))
       (sidecar_layers s) (local_files s)
       (effects s ++
        [EPull CONFIG_PATH; EPush CONFIG_PATH; EPull CONFIG_PATH;
         if bool_decide (remaining = []) then EStop SERVICE_NAME
         else ERestart SERVICE_NAME])).
Proof.
  intros Hclass Hunit Hfile Hd Hdeclared remaining.
  assert (_remove_client (VDict d) url = Ok (VDict (<["clients" := VList remaining]> d)))
    as Hrem.
  { simpl. rewrite Hd. destruct cs as [|c cs]; [|done]. simpl.
    subst remaining. by rewrite filter_nil, insert_id. }
  destruct s. fields Hunit. fields Hfile. fields Hdeclared.
  unfold _on_log_proxy_relation_departed, _update_config, _build_config_file,
    _update_agents_list, _current_config.
  rewrite Hclass. run. rewrite Hunit, Hfile. cbv iota beta.
  unfold yaml_safe_load at 1. cbv iota beta. rewrite Hrem. cbv iota beta.
  rewrite Hunit, lookup_insert_eq. cbv iota beta.
  unfold yaml_dump, yaml_safe_load, py_getitem. rewrite lookup_insert_eq.
  cbv iota beta. unfold py_len.
  destruct remaining as [|c rest]; cbv iota beta.
  - rewrite !bool_decide_true by done. rewrite Hdeclared.
    by rewrite <- !app_assoc.
  - rewrite !bool_decide_false by done. rewrite Hdeclared.
    by rewrite <- !app_assoc.
Qed.

(** The departure handler, when the unit is in the registry and the
    configuration is a dictionary without [clients]. *)
Lemma run_relation_departed_without_clients (ev : event) (s : consumer) (url : value)
    (d : gmap string value) :
  ev_class ev = RelationDepartedEvent →
  grafana_agents s !! ev_unit ev = Some url →
  sidecar_files s !! CONFIG_PATH = Some (YamlText (VDict d)) →
  d !! "clients" = None →
  _on_log_proxy_relation_departed ev s =
    (Raise (KeyError "clients"),
     Consumer (model_name s) (model_uuid s) (app_name s) (_container_name s)
       (delete (ev_unit ev) (grafana_agents s))
       (sidecar_files s) (sidecar_services s) (sidecar_layers s) (local_files s)
       (effects s ++ [EPull CONFIG_PATH; EPush CONFIG_PATH; EPull CONFIG_PATH])).
Proof.
  intros Hclass Hunit Hfile Hd.
  destruct s. fields Hunit. fields Hfile.
  unfold _on_log_proxy_relation_departed, _update_config, _build_config_file,
    _update_agents_list, _current_config.
  rewrite Hclass. run. rewrite Hunit, Hfile. cbv iota beta.
  unfold yaml_safe_load at 1. cbv iota beta.
  unfold _remove_client. rewrite Hd. cbv iota beta.
  rewrite Hunit, lookup_insert_eq. cbv iota beta.
  unfold yaml_dump, yaml_safe_load, py_getitem. rewrite Hd. cbv iota beta.
  rewrite insert_id by done. by rewrite <- !app_assoc.
Qed.

(** [_on_log_proxy_relation_created], whatever the state. *)
Lemma run_relation_created (ev : event) (s : consumer) :
  _on_log_proxy_relation_created ev s =
    (Ok tt,
     Consumer (model_name s) (model_uuid s) (app_name s) (_container_name s)
       (grafana_agents s)
       (<[CONFIG_PATH := YamlText (_initial_config s)]> (sidecar_files s))
       (sidecar_services s) (sidecar_layers s) (local_files s)
       (effects s ++ [EPush CONFIG_PATH])).
Proof. by destruct s. Qed.

Lemma _initial_config_clients (s : consumer) :
  ∃ d, _initial_config s = VDict d ∧ d !! "clients" = None ∧
       dom d = {[ "server"; "positions"; "scrape_configs" ]}.
Proof.
  eexists. split; [done|]. split; [done|].
  unfold dict_update, _server_config, _positions, _scrape_configs.
  rewrite !dom_union_L, !dom_singleton_L, dom_empty_L. set_solver.
Qed.

Section Handlers_run.

Variable urlopen : string → option (list Byte.byte).
Variable zip_members : list Byte.byte → option (list (string * list Byte.byte)).

(** The relation-changed handler on its usual way: [data] is published,
    the binary is installed, the configuration has a clients list or none
    and the container is named.  The handler returns when the plan, with
    the promtail layer added, has a service of the container's name;
    otherwise the first [restart] raises. *)
Lemma run_relation_changed (ev : event) (s : consumer) (t : json_text) (url : value)
    (d : gmap string value) (cs : list value) (n : string) :
  ev_class ev = RelationChangedEvent →
  ev_data ev !! "data" = Some t → text_truthy t = true →
  event_data_item ev "loki_push_api" = Ok url →
  is_Some (sidecar_files s !! WORKLOAD_BINARY_PATH) →
  sidecar_files s !! CONFIG_PATH = Some (YamlText (VDict d)) →
  clients_of d = Some cs →
  _container_name s = Some n →
  let layers := <[n := layer_added (sidecar_layers s) n promtail_layer]> (sidecar_layers s) in
  let declared := service_declared layers n in
  _on_log_proxy_relation_changed urlopen zip_members ev s =
    (if declared then Ok tt else Raise APIError,
     Consumer (model_name s) (model_uuid s) (app_name s) (Some n)
       (<[ev_unit ev := url]> (grafana_agents s))
       (<[CONFIG_PATH :=
            YamlText (VDict (<["clients" := VList (cs ++ [client_entry url])]> d))]>
          (sidecar_files s))
       (if declared
        then <[SERVICE_NAME := Running]> (<[n := Running]> (sidecar_services s))
        else sidecar_services s)
       layers
       (local_files s)
       (effects s ++
        [EListFiles BINARY_DIR "promtail-linux-amd64"; EPull CONFIG_PATH;
         EPush CONFIG_PATH; EAddLayer n; ERestart n] ++
        if declared then [ERestart SERVICE_NAME] else [])).
Proof.
  intros Hclass Hdata Htruthy Hurl [f Hbin] Hfile Hcs Hname layers declared.
  destruct s. fields Hbin. fields Hfile. fields Hname. subst _container_name0.
  cbn [sidecar_layers] in layers.
  unfold _on_log_proxy_relation_changed, _obtain_promtail,
    _is_promtail_binary_in_workload, _update_config, _build_config_file,
    _update_agents_list, _current_config, _add_pebble_layer.
  rewrite Hdata, Htruthy, Hclass. run.
  rewrite binary_path, Hbin. cbv iota beta.
  rewrite bool_decide_true by done. cbv iota beta.
  rewrite Hurl. cbv iota beta. rewrite Hfile. cbv iota beta.
  unfold yaml_safe_load. cbv iota beta.
  rewrite (_add_client_spec _ _ _ Hcs). cbv iota beta.
  rewrite valid_overrides_promtail. cbv iota beta.
  subst declared layers.
  destruct (service_declared _ n); cbv iota beta.
  - rewrite (proj2 (service_declared_layer_added sidecar_layers0 n SERVICE_NAME))
      by by left.
    by rewrite <- !app_assoc.
  - by rewrite <- !app_assoc.
Qed.

(** The same, when the handler returns: the container is named promtail
    or a layer declares a service of its name. *)
Lemma run_relation_changed_declared (ev : event) (s : consumer) (t : json_text)
    (url : value) (d : gmap string value) (cs : list value) (n : string) :
  ev_class ev = RelationChangedEvent →
  ev_data ev !! "data" = Some t → text_truthy t = true →
  event_data_item ev "loki_push_api" = Ok url →
  is_Some (sidecar_files s !! WORKLOAD_BINARY_PATH) →
  sidecar_files s !! CONFIG_PATH = Some (YamlText (VDict d)) →
  clients_of d = Some cs →
  _container_name s = Some n →
  n = SERVICE_NAME ∨ service_declared (sidecar_layers s) n = true →
  _on_log_proxy_relation_changed urlopen zip_members ev s =
    (Ok tt,
     Consumer (model_name s) (model_uuid s) (app_name s) (Some n)
       (<[ev_unit ev := url]> (grafana_agents s))
       (<[CONFIG_PATH :=
            YamlText (VDict (<["clients" := VList (cs ++ [client_entry url])]> d))]>
          (sidecar_files s))
       (<[SERVICE_NAME := Running]> (<[n := Running]> (sidecar_services s)))
       (<[n := layer_added (sidecar_layers s) n promtail_layer]> (sidecar_layers s))
       (local_files s)
       (effects s ++
        [EListFiles BINARY_DIR "promtail-linux-amd64"; EPull CONFIG_PATH;
         EPush CONFIG_PATH; EAddLayer n; ERestart n; ERestart SERVICE_NAME])).
Proof.
  intros Hclass Hdata Htruthy Hurl Hbin Hfile Hcs Hname Hdeclared.
  rewrite (run_relation_changed ev s t url d cs n) by done.
  apply (service_declared_layer_added (sidecar_layers s) n n) in Hdeclared.
  by rewrite Hdeclared.
Qed.

(** X12: the relation-changed handler on its usual way.  The
    configuration gets the agent's entry after the clients it had, the
    registry maps the unit to the agent's URL, the layer of the
    container's name declares promtail and the services it had, the other
    layers are as before, and [restart] is called for the service of the
    container's name.  When the container is named promtail or a layer declares a
    service of its name, promtail is restarted next and the handler
    returns, both services running.  Otherwise Pebble's error leaves the
    handler: promtail is not restarted and the services are as before. *)
Theorem relation_changed_serves (ev : event) (s : consumer) (t : json_text)
    (url : value) (d : gmap string value) (cs : list value) (n : string) :
  ev_class ev = RelationChangedEvent →
  ev_data ev !! "data" = Some t → text_truthy t = true →
  event_data_item ev "loki_push_api" = Ok url →
  is_Some (sidecar_files s !! WORKLOAD_BINARY_PATH) →
  sidecar_files s !! CONFIG_PATH = Some (YamlText (VDict d)) →
  clients_of d = Some cs →
  _container_name s = Some n →
  ∃ r s', _on_log_proxy_relation_changed urlopen zip_members ev s = (r, s') ∧
    (_current_config s').1 =
      Ok (VDict (<["clients" := VList (cs ++ [client_entry url])]> d)) ∧
    grafana_agents s' = <[ev_unit ev := url]> (grafana_agents s) ∧
    (∃ layer, sidecar_layers s' = <[n := layer]> (sidecar_layers s) ∧
       layer_services layer !! SERVICE_NAME = Some promtail_service ∧
       ∀ service, service ≠ SERVICE_NAME →
         layer_services layer !! service =
           sidecar_layers s !! n ≫= λ old, layer_services old !! service) ∧
    (n = SERVICE_NAME ∨ service_declared (sidecar_layers s) n = true →
     r = Ok tt ∧
     sidecar_services s' !! n = Some Running ∧
     sidecar_services s' !! SERVICE_NAME = Some Running ∧
     effects s' = effects s ++
       [EListFiles BINARY_DIR "promtail-linux-amd64"; EPull CONFIG_PATH;
        EPush CONFIG_PATH; EAddLayer n; ERestart n; ERestart SERVICE_NAME]) ∧
    (n ≠ SERVICE_NAME → service_declared (sidecar_layers s) n = false →
     r = Raise APIError ∧
     sidecar_services s' = sidecar_services s ∧
     effects s' = effects s ++
       [EListFiles BINARY_DIR "promtail-linux-amd64"; EPull CONFIG_PATH;
        EPush CONFIG_PATH; EAddLayer n; ERestart n]).
Proof.
  intros Hclass Hdata Htruthy Hurl Hbin Hfile Hcs Hname.
  eexists _, _. split; [by eapply run_relation_changed|].
  split_and!.
  - unfold _current_config. run. by rewrite lookup_insert_eq.
  - done.
  - eexists. cbn [sidecar_layers]. split; [done|]. split.
    + apply layer_added_promtail.
    + intros service Hne. by apply layer_added_other.
  - intros Hdeclared.
    apply (service_declared_layer_added (sidecar_layers s) n n) in Hdeclared.
    rewrite Hdeclared. cbn [sidecar_services effects].
    split_and!; [done| |apply lookup_insert_eq|done].
    destruct (decide (SERVICE_NAME = n)) as [<-|Hne].
    + apply lookup_insert_eq.
    + rewrite lookup_insert_ne by done. apply lookup_insert_eq.
  - intros Hne Hnone.
    destruct (service_declared
                (<[n := layer_added (sidecar_layers s) n promtail_layer]>
                   (sidecar_layers s)) n) eqn:Hdeclared.
    + apply service_declared_layer_added in Hdeclared as [?|Hdeclared]; [done|].
      by rewrite Hnone in Hdeclared.
    + cbn [sidecar_services effects]. by split_and!.
Qed.

(** X13: a relation-changed event whose [data] has no [loki_push_api]
    (or is not JSON), with the binary installed: the handler raises what
    the lookup raises, before it reads or writes the configuration. *)
Theorem relation_changed_without_push_url (ev : event) (s : consumer)
    (t : json_text) (e : exn) :
  ev_class ev = RelationChangedEvent →
  ev_data ev !! "data" = Some t → text_truthy t = true →
  event_data_item ev "loki_push_api" = Raise e →
  is_Some (sidecar_files s !! WORKLOAD_BINARY_PATH) →
  _on_log_proxy_relation_changed urlopen zip_members ev s =
    (Raise e, set_effects (effects s ++ [EListFiles BINARY_DIR "promtail-linux-amd64"]) s).
Proof.
  intros Hclass Hdata Htruthy Hurl [f Hbin].
  destruct s. fields Hbin.
  unfold _on_log_proxy_relation_changed, _obtain_promtail,
    _is_promtail_binary_in_workload, _update_config, _build_config_file.
  rewrite Hdata, Htruthy, Hclass. run.
  rewrite binary_path, Hbin. cbv iota beta.
  rewrite bool_decide_true by done. cbv iota beta.
  by rewrite Hurl.
Qed.

(** X14: a relation-changed event whose [data] has no
    [promtail_binary_zip_url], with the binary not installed: the handler
    raises what the lookup raises, and nothing is downloaded. *)
Theorem relation_changed_without_binary_url (ev : event) (s : consumer)
    (t : json_text) (e : exn) :
  ev_data ev !! "data" = Some t → text_truthy t = true →
  event_data_item ev "promtail_binary_zip_url" = Raise e →
  sidecar_files s !! WORKLOAD_BINARY_PATH = None →
  _on_log_proxy_relation_changed urlopen zip_members ev s =
    (Raise e, set_effects (effects s ++ [EListFiles BINARY_DIR "promtail-linux-amd64"]) s).
Proof.
  intros Hdata Htruthy Hurl Hbin.
  destruct s. fields Hbin.
  unfold _on_log_proxy_relation_changed, _obtain_promtail,
    _is_promtail_binary_in_workload, _download_promtail.
  rewrite Hdata, Htruthy. run.
  rewrite binary_path, Hbin. cbv iota beta.
  rewrite bool_decide_false by done. cbv iota beta.
  by rewrite Hurl.
Qed.

(** X15: a unit that joins and then departs, in a container that is
    named promtail or has a service of its name declared: when the
    registry did not know the unit and no client had its URL, the registry
    is back as it was and the clients list is the one before the join;
    promtail is stopped if that list is empty and restarted otherwise. *)
Theorem join_then_depart (ev_c ev_d : event) (s : consumer) (t : json_text)
    (U : string) (d : gmap string value) (cs : list value) (n : string) :
  ev_class ev_c = RelationChangedEvent →
  ev_class ev_d = RelationDepartedEvent →
  ev_unit ev_d = ev_unit ev_c →
  ev_data ev_c !! "data" = Some t → text_truthy t = true →
  event_data_item ev_c "loki_push_api" = Ok (VStr U) →
  is_Some (sidecar_files s !! WORKLOAD_BINARY_PATH) →
  sidecar_files s !! CONFIG_PATH = Some (YamlText (VDict d)) →
  clients_of d = Some cs →
  _container_name s = Some n →
  n = SERVICE_NAME ∨ service_declared (sidecar_layers s) n = true →
  grafana_agents s !! ev_unit ev_c = None →
  Forall (λ c, py_eq c (client_entry (VStr U)) = false) cs →
  ∃ s', (_on_log_proxy_relation_changed urlopen zip_members ev_c;;
         _on_log_proxy_relation_departed ev_d) s = (Ok tt, s') ∧
        grafana_agents s' = grafana_agents s ∧
        (_current_config s').1 = Ok (VDict (<["clients" := VList cs]> d)) ∧
        sidecar_services s' !! SERVICE_NAME =
          Some (if bool_decide (cs = []) then Stopped else Running).
Proof.
  intros Hc Hd Hunit Hdata Htruthy Hurl Hbin Hfile Hcs Hname Hdeclared Hnew Hfresh.
  cbv [mbind M_bind].
  rewrite (run_relation_changed_declared _ _ _ _ _ _ _
             Hc Hdata Htruthy Hurl Hbin Hfile Hcs Hname Hdeclared).
  cbv iota beta.
  erewrite (run_relation_departed ev_d _ (VStr U)); [|done|..].
  2:{ cbn. rewrite Hunit. apply lookup_insert_eq. }
  2:{ cbn. apply lookup_insert_eq. }
  2:{ apply lookup_insert_eq. }
  2:{ cbn [sidecar_layers]. apply service_declared_layer_added. by left. }
  rewrite filter_app, filter_py_ne_none, filter_cons_False, filter_nil, app_nil_r;
    [|unfold py_ne; rewrite py_eq_client_entry; simpl; tauto|done].
  eexists. split; [done|]. cbn. split_and!.
  - rewrite Hunit, delete_insert_eq. by apply delete_id.
  - unfold _current_config. run. rewrite lookup_insert_eq. cbv iota beta.
    unfold yaml_safe_load. by rewrite insert_insert_eq.
  - apply lookup_insert_eq.
Qed.


End Handlers_run.

(** X17: the departure of a registered unit while the configuration has no
    [clients] key raises [KeyError] after the configuration was written
    back as it was: the sidecar's files and services are unchanged, and
    promtail is neither stopped nor restarted. *)
Theorem departure_without_clients_key (ev : event) (s : consumer) (url : value)
    (d : gmap string value) :
  ev_class ev = RelationDepartedEvent →
  grafana_agents s !! ev_unit ev = Some url →
  sidecar_files s !! CONFIG_PATH = Some (YamlText (VDict d)) →
  d !! "clients" = None →
  ∃ s', _on_log_proxy_relation_departed ev s = (Raise (KeyError "clients"), s') ∧
        sidecar_files s' = sidecar_files s ∧
        sidecar_services s' = sidecar_services s ∧
        effects s' = effects s ++ [EPull CONFIG_PATH; EPush CONFIG_PATH; EPull CONFIG_PATH].
Proof.
  intros Hclass Hunit Hfile Hd. eexists.
  split; [by eapply run_relation_departed_without_clients|]. done.
Qed.

(** X18: a relation-created event writes a configuration without
    [clients], whatever the configuration was: the departure of a unit
    that is still in the registry then raises [KeyError] and leaves
    promtail running as it was. *)
Theorem created_then_departure_raises (ev_c ev_d : event) (s : consumer) (url : value) :
  ev_class ev_d = RelationDepartedEvent →
  grafana_agents s !! ev_unit ev_d = Some url →
  ∃ s', (_on_log_proxy_relation_created ev_c;;
         _on_log_proxy_relation_departed ev_d) s = (Raise (KeyError "clients"), s') ∧
        (_current_config s').1 = Ok (_initial_config s) ∧
        sidecar_services s' = sidecar_services s ∧
        effects s' = effects s ++
          [EPush CONFIG_PATH; EPull CONFIG_PATH; EPush CONFIG_PATH; EPull CONFIG_PATH].
Proof.
  intros Hclass Hunit. cbv [mbind M_bind]. rewrite run_relation_created.
  cbv iota beta.
  destruct (_initial_config_clients s) as (d & Hinit & Hclients & _).
  erewrite (run_relation_departed_without_clients ev_d _ url d); [|done|done|..].
  2:{ cbn. rewrite Hinit. apply lookup_insert_eq. }
  2:{ done. }
  eexists. split; [done|]. cbn. split_and!; try done.
  - unfold _current_config. run. by rewrite lookup_insert_eq.
  - by rewrite <- app_assoc.
Qed.

Lemma relation_changed_serves_witness :
  ∃ r s', _on_log_proxy_relation_changed sample_urlopen sample_zip_members
            sample_changed_event workload_consumer = (r, s') ∧
    r = Ok tt ∧
    (_current_config s').1 =
      Ok (VDict (<["clients" :=
                     VList [client_entry (VStr "http://10.0.0.5:3100/loki/api/v1/push")]]>
                   (initial_sections workload_consumer))) ∧
    grafana_agents s' =
      {[ "grafana-agent-k8s/0" := VStr "http://10.0.0.5:3100/loki/api/v1/push" ]} ∧
    (∃ layer, sidecar_layers s' = {[ "workload" := layer ]} ∧
       layer_services layer !! SERVICE_NAME = Some promtail_service ∧
       layer_services layer !! "workload" =
         Some (ServiceSpec "replace" "workload" "/bin/workload" "enabled")) ∧
    effects s' =
      [EListFiles BINARY_DIR "promtail-linux-amd64"; EPull CONFIG_PATH;
       EPush CONFIG_PATH; EAddLayer "workload"; ERestart "workload";
       ERestart SERVICE_NAME].
Proof.
  destruct (relation_changed_serves sample_urlopen sample_zip_members
              sample_changed_event workload_consumer
              (json_dumps (VDict {[
                 "loki_push_api" := VStr "http://10.0.0.5:3100/loki/api/v1/push";
                 "promtail_binary_zip_url" := VStr PROMTAIL_BINARY_ZIP_URL ]}))
              (VStr "http://10.0.0.5:3100/loki/api/v1/push")
              (initial_sections workload_consumer) [] "workload")
    as (r & s' & Hrun & Hconfig & Hagents & (layer & Hlayers & Hpromtail & Hother)
        & Hreturns & _).
  - reflexivity.
  - vm_compute. reflexivity.
  - reflexivity.
  - vm_compute. reflexivity.
  - vm_compute. by eexists.
  - vm_compute. reflexivity.
  - vm_compute. reflexivity.
  - reflexivity.
  - destruct Hreturns as (Hr & _ & _ & Heffects); [right; vm_compute; reflexivity|].
    exists r, s'. split_and!;
      [exact Hrun | exact Hr | exact Hconfig | exact Hagents | | exact Heffects].
    exists layer. split_and!.
    + rewrite Hlayers. vm_compute. reflexivity.
    + exact Hpromtail.
    + rewrite (Hother "workload"); [vm_compute; reflexivity | discriminate].
Defined.

Lemma relation_changed_without_push_url_witness :
  _on_log_proxy_relation_changed sample_urlopen sample_zip_members
    sample_incomplete_event serving_consumer =
    (Raise (KeyError "loki_push_api"),
     set_effects (effects serving_consumer ++
                  [EListFiles BINARY_DIR "promtail-linux-amd64"]) serving_consumer).
Proof.
  apply (relation_changed_without_push_url sample_urlopen sample_zip_members
           sample_incomplete_event serving_consumer (json_dumps (VDict ∅))).
  - reflexivity.
  - vm_compute. reflexivity.
  - reflexivity.
  - vm_compute. reflexivity.
  - vm_compute. by eexists.
Defined.

Lemma relation_changed_without_binary_url_witness :
  _on_log_proxy_relation_changed sample_urlopen sample_zip_members
    sample_incomplete_event fresh_consumer =
    (Raise (KeyError "promtail_binary_zip_url"),
     set_effects (effects fresh_consumer ++
                  [EListFiles BINARY_DIR "promtail-linux-amd64"]) fresh_consumer).
Proof.
  apply (relation_changed_without_binary_url sample_urlopen sample_zip_members
           sample_incomplete_event fresh_consumer (json_dumps (VDict ∅))).
  - vm_compute. reflexivity.
  - reflexivity.
  - vm_compute. reflexivity.
  - vm_compute. reflexivity.
Defined.

Lemma join_then_depart_witness :
  ∃ s', (_on_log_proxy_relation_changed sample_urlopen sample_zip_members
           sample_changed_event;;
         _on_log_proxy_relation_departed sample_departed_event) ready_consumer
          = (Ok tt, s') ∧
        grafana_agents s' = grafana_agents ready_consumer ∧
        (_current_config s').1 =
          Ok (VDict (<["clients" := VList []]> (initial_sections ready_consumer))) ∧
        sidecar_services s' !! SERVICE_NAME = Some Stopped.
Proof.
  apply (join_then_depart sample_urlopen sample_zip_members
           sample_changed_event sample_departed_event ready_consumer
           (json_dumps (VDict {[
              "loki_push_api" := VStr "http://10.0.0.5:3100/loki/api/v1/push";
              "promtail_binary_zip_url" := VStr PROMTAIL_BINARY_ZIP_URL ]}))
           "http://10.0.0.5:3100/loki/api/v1/push"
           (initial_sections ready_consumer) [] "promtail").
  - reflexivity.
  - reflexivity.
  - reflexivity.
  - vm_compute. reflexivity.
  - reflexivity.
  - vm_compute. reflexivity.
  - vm_compute. by eexists.
  - vm_compute. reflexivity.
  - vm_compute. reflexivity.
  - reflexivity.
  - by left.
  - vm_compute. reflexivity.
  - constructor.
Defined.


Lemma departure_without_clients_key_witness :
  ∃ s', _on_log_proxy_relation_departed sample_departed_event orphaned_consumer
          = (Raise (KeyError "clients"), s') ∧
        sidecar_files s' = sidecar_files orphaned_consumer ∧
        sidecar_services s' = sidecar_services orphaned_consumer ∧
        effects s' = effects orphaned_consumer ++
          [EPull CONFIG_PATH; EPush CONFIG_PATH; EPull CONFIG_PATH].
Proof.
  apply (departure_without_clients_key sample_departed_event orphaned_consumer
           (VStr "http://10.0.0.5:3100/loki/api/v1/push")
           (initial_sections orphaned_consumer)).
  - reflexivity.
  - vm_compute. reflexivity.
  - vm_compute. reflexivity.
  - vm_compute. reflexivity.
Defined.

Lemma created_then_departure_raises_witness :
  ∃ s', (_on_log_proxy_relation_created sample_changed_event;;
         _on_log_proxy_relation_departed sample_departed_event) serving_consumer
          = (Raise (KeyError "clients"), s') ∧
        (_current_config s').1 = Ok (_initial_config serving_consumer) ∧
        sidecar_services s' = sidecar_services serving_consumer ∧
        effects s' = effects serving_consumer ++
          [EPush CONFIG_PATH; EPull CONFIG_PATH; EPush CONFIG_PATH; EPull CONFIG_PATH].
Proof.
  apply (created_then_departure_raises sample_changed_event sample_departed_event
           serving_consumer (VStr "http://10.0.0.5:3100/loki/api/v1/push")).
  - reflexivity.
  - vm_compute. reflexivity.
Defined.

(** ** What every handler keeps *)

Lemma config_well_formed_fields (s s' : consumer) :
  sidecar_files s' !! CONFIG_PATH = sidecar_files s !! CONFIG_PATH →
  config_well_formed s → config_well_formed s'.
Proof. intros Heq (d & cs & Hfile & H). exists d, cs. by rewrite Heq. Qed.

Lemma keeps_wf_bind {A B : Type} (m : M A) (f : A → M B) :
  keeps_config_well_formed m → (∀ a, keeps_config_well_formed (f a)) →
  keeps_config_well_formed (m ≫= f).
Proof.
  intros Hm Hf s Hs. cbv [mbind M_bind].
  specialize (Hm s Hs). destruct (m s) as [[a|e] s1]; [|done].
  by apply Hf.
Qed.

(** A step that leaves the configuration file alone. *)
Lemma keeps_wf_frame {A : Type} (m : M A) :
  (∀ s, sidecar_files (m s).2 !! CONFIG_PATH = sidecar_files s !! CONFIG_PATH) →
  keeps_config_well_formed m.
Proof. intros Hm s Hs. exact (config_well_formed_fields s _ (Hm s) Hs). Qed.

(** A step that leaves the files of the sidecar alone. *)
Lemma keeps_wf_files {A : Type} (m : M A) :
  (∀ s, sidecar_files (m s).2 = sidecar_files s) → keeps_config_well_formed m.
Proof. intros Hm. apply keeps_wf_frame. intros s. by rewrite Hm. Qed.

Lemma _update_agents_list_keeps_wf (ev : event) :
  keeps_config_well_formed (_update_agents_list ev).
Proof.
  apply keeps_wf_files. intros s. destruct s. unfold _update_agents_list. run.
  destruct (ev_class ev); try done.
  - by destruct (event_data_item ev "loki_push_api").
  - by destruct (grafana_agents0 !! ev_unit ev).
Qed.

Lemma restart_keeps_wf (service : option string) :
  keeps_config_well_formed (restart service).
Proof.
  apply keeps_wf_files. intros s. destruct s. destruct service as [n|]; [|done].
  run. by destruct (service_declared sidecar_layers0 n).
Qed.

Lemma stop_keeps_wf (service : string) : keeps_config_well_formed (stop service).
Proof.
  apply keeps_wf_files. intros s. destruct s.
  run. by destruct (service_declared sidecar_layers0 service).
Qed.

Lemma _add_pebble_layer_keeps_wf : keeps_config_well_formed _add_pebble_layer.
Proof.
  apply keeps_wf_files. intros s. destruct s. unfold _add_pebble_layer. run.
  destruct _container_name0; [|done].
  by rewrite valid_overrides_promtail.
Qed.

Lemma _current_config_keeps_wf : keeps_config_well_formed _current_config.
Proof.
  apply keeps_wf_files. intros s. destruct s. unfold _current_config. run.
  destruct (sidecar_files0 !! CONFIG_PATH) as [f|]; [|done].
  by destruct (yaml_safe_load f).
Qed.

Lemma lift_keeps_wf {A : Type} (r : result A) : keeps_config_well_formed (lift r).
Proof. by apply keeps_wf_files. Qed.

(** [_update_config] writes a well-formed configuration: the one it read
    with an entry more or with entries less, or the empty one. *)
Lemma _update_config_keeps_wf (ev : event) :
  keeps_config_well_formed (_update_config ev).
Proof.
  intros s (d & cs & Hfile & Hcs & Hall). destruct s. fields Hfile.
  unfold _update_config, _build_config_file, _current_config. run.
  destruct (ev_class ev).
  - exists ∅, []. cbn. by rewrite lookup_insert_eq.
  - destruct (event_data_item ev "loki_push_api") as [url|e].
    2:{ by exists d, cs. }
    rewrite Hfile. cbv iota beta. unfold yaml_safe_load.
    rewrite (_add_client_spec _ _ _ Hcs). cbv iota beta.
    eexists _, _. cbn. rewrite lookup_insert_eq. split; [done|]. split.
    + unfold clients_of. by rewrite lookup_insert_eq.
    + apply Forall_app. split; [done|]. constructor; [by eexists|constructor].
  - destruct (grafana_agents0 !! ev_unit ev) as [url|].
    2:{ by exists d, cs. }
    rewrite Hfile. cbv iota beta. unfold yaml_safe_load.
    destruct (_remove_client_spec d cs url Hcs) as (d' & Hrem & Hcs' & _).
    rewrite Hrem. cbv iota beta.
    eexists _, _. cbn. rewrite lookup_insert_eq. split; [done|]. split; [done|].
    apply Forall_forall. intros c [_ Hc]%list_elem_of_filter.
    by apply (proj1 (Forall_forall _ _) Hall).
  - exists ∅, []. cbn. by rewrite lookup_insert_eq.
Qed.

Section Handlers_keep.

Variable urlopen : string → option (list Byte.byte).
Variable zip_members : list Byte.byte → option (list (string * list Byte.byte)).

Lemma _obtain_promtail_keeps_wf (ev : event) :
  keeps_config_well_formed (_obtain_promtail urlopen zip_members ev).
Proof.
  apply keeps_wf_frame. intros s.
  destruct (_obtain_promtail urlopen zip_members ev s) as [r s'] eqn:Hrun.
  destruct (_obtain_promtail_outcome _ _ _ _ _ _ Hrun)
    as [(e & _ & Hkept)|[(_ & _ & Hkept)|(_ & s1 & f & Hkept & ->)]];
    destruct Hkept as (Hf & _); simpl.
  - by rewrite Hf.
  - by rewrite Hf.
  - destruct s1. cbn in *. by rewrite lookup_insert_ne, Hf.
Qed.

(** X19: every handler leaves a well-formed configuration well-formed,
    whether it returns or raises: after relation-created,
    relation-changed, relation-departed or upgrade, the configuration on
    the sidecar is a dictionary whose clients, if any, are a list of
    entries [{"url": ...}]. *)
Theorem handlers_keep_config_well_formed (ev : event) (s : consumer) :
  config_well_formed s →
  config_well_formed (_on_log_proxy_relation_created ev s).2 ∧
  config_well_formed (_on_log_proxy_relation_changed urlopen zip_members ev s).2 ∧
  config_well_formed (_on_log_proxy_relation_departed ev s).2 ∧
  config_well_formed (_on_upgrade_charm ev s).2.
Proof.
  intros Hs. split_and!; [| | |done].
  - rewrite run_relation_created.
    destruct (_initial_config_clients s) as (d & -> & Hclients & _).
    exists d, []. cbn. rewrite lookup_insert_eq. split; [done|].
    unfold clients_of. by rewrite Hclients.
  - revert s Hs. unfold _on_log_proxy_relation_changed.
    destruct (ev_data ev !! "data") as [t|]; [|done].
    destruct (text_truthy t); [|done].
    apply keeps_wf_bind; [apply _obtain_promtail_keeps_wf|intros _].
    apply keeps_wf_bind; [apply _update_config_keeps_wf|intros _].
    apply keeps_wf_bind; [apply _update_agents_list_keeps_wf|intros _].
    apply keeps_wf_bind; [apply _add_pebble_layer_keeps_wf|intros _].
    apply keeps_wf_bind; [by apply keeps_wf_files|intros s'].
    apply keeps_wf_bind; [apply restart_keeps_wf|intros _].
    apply restart_keeps_wf.
  - revert s Hs. unfold _on_log_proxy_relation_departed.
    apply keeps_wf_bind; [apply _update_config_keeps_wf|intros _].
    apply keeps_wf_bind; [apply _update_agents_list_keeps_wf|intros _].
    apply keeps_wf_bind; [apply _current_config_keeps_wf|intros current].
    apply keeps_wf_bind; [apply lift_keeps_wf|intros clients].
    apply keeps_wf_bind; [apply lift_keeps_wf|intros n].
    case_bool_decide; [apply stop_keeps_wf|apply restart_keeps_wf].
Qed.

End Handlers_keep.

Lemma handlers_keep_config_well_formed_witness :
  config_well_formed
    (_on_log_proxy_relation_created sample_departed_event serving_two_consumer).2 ∧
  config_well_formed
    (_on_log_proxy_relation_changed sample_urlopen sample_zip_members
       sample_departed_event serving_two_consumer).2 ∧
  config_well_formed
    (_on_log_proxy_relation_departed sample_departed_event serving_two_consumer).2 ∧
  config_well_formed (_on_upgrade_charm sample_departed_event serving_two_consumer).2.
Proof.
  apply (handlers_keep_config_well_formed sample_urlopen sample_zip_members
           sample_departed_event serving_two_consumer).
  eexists _, _. split_and!.
  - vm_compute. reflexivity.
  - vm_compute. reflexivity.
  - repeat constructor; by eexists.
Defined.

(** ** Several agents *)

Section Several_agents.

Variable urlopen : string → option (list Byte.byte).
Variable zip_members : list Byte.byte → option (list (string * list Byte.byte)).



(** X22: the binary is not installed and [urlopen] raises:
    [_obtain_promtail] raises what [urlopen] raised, after [list_files]
    and [urlopen]; nothing is written, the staging files and the sidecar
    are as before. *)
Theorem obtain_promtail_network_failure (ev : event) (s : consumer) (url : string) :
  sidecar_files s !! WORKLOAD_BINARY_PATH = None →
  event_data_item ev "promtail_binary_zip_url" = Ok (VStr url) →
  urlopen url = None →
  _obtain_promtail urlopen zip_members ev s =
    (Raise UrlopenError,
     set_effects (effects s ++
                  [EListFiles BINARY_DIR "promtail-linux-amd64"; EUrlopen url]) s).
Proof.
  intros Hbin Hurl Hopen. destruct s. fields Hbin.
  unfold _obtain_promtail, _is_promtail_binary_in_workload, _download_promtail.
  run. rewrite binary_path, Hbin. cbv iota beta.
  rewrite bool_decide_false by done. cbv iota beta.
  rewrite Hurl. cbv iota beta. rewrite Hopen. cbv iota beta.
  by rewrite <- app_assoc.
Qed.

End Several_agents.



Lemma obtain_promtail_network_failure_witness :
  _obtain_promtail sample_dead_urlopen sample_zip_members sample_changed_event
    fresh_consumer =
    (Raise UrlopenError,
     set_effects (effects fresh_consumer ++
                  [EListFiles BINARY_DIR "promtail-linux-amd64";
                   EUrlopen PROMTAIL_BINARY_ZIP_URL]) fresh_consumer).
Proof.
  apply (obtain_promtail_network_failure sample_dead_urlopen sample_zip_members
           sample_changed_event fresh_consumer PROMTAIL_BINARY_ZIP_URL).
  - vm_compute. reflexivity.
  - vm_compute. reflexivity.
  - reflexivity.
Defined.
